(** * Google Scholar profile parser: a shallow embedding of [parser.py]

    The development follows the class [ScholarProfileParser]:
    [search_author_profiles], [get_profile_papers], [extract_paper_info],
    [get_paper_details] and [analyze_author_research].

    - A Python [dict] with string keys and string values is a
      [gmap string string]; a Python [list] is a [list].
    - The pages served by the site are data: a parsed page is a record that
      holds what the BeautifulSoup queries of the source ([find],
      [find_all], [get_text(strip=True)], [get]) return on it.
    - A request that raises (transport failure, [raise_for_status]) is
      [None].
    - The [while True] loop of [get_profile_papers] takes fuel: one unit per
      request; [None] is "still running".
    - Library functions whose exact behaviour the program does not fix
      ([int], [urljoin], [urlparse]/[parse_qs]) are the fields of the class
      [PyLib]; every general statement holds for every instance. [int] and
      [urljoin] can raise [ValueError]: they return an [option].
    - A [try] whose body mutates a dict keeps the dict as the body left it
      when a call raised: the body returns an [attempt].
    - A Python [str] is held as its UTF-8 encoding; [len] and slicing count
      code points, which are the bytes that are not continuation bytes. *)

From Stdlib Require Import Ascii.
From stdpp Require Import gmap strings list pretty.

Local Open Scope Z_scope.

(** ** Python values *)

(** A record scraped from a page: [paper_info], [details], [paper]. *)
Abbreviation dict := (gmap string string).

(** Truth value of an optional integer argument ([None] and [0] are false). *)
Definition truthy_int (o : option Z) : bool :=
  match o with
  | Some n => negb (n =? 0)
  | None => false
  end.

(** Truth value of a string (the empty string is false). *)
Definition truthy_str (s : string) : bool :=
  negb (bool_decide (s = "")).

(** Truth value of a dict (the empty dict is false). *)
Definition truthy_dict (d : dict) : bool :=
  negb (bool_decide (d = ∅)).

(** [pat in s] on strings. *)
Definition str_contains (pat s : string) : bool :=
  match String.index 0 pat s with
  | Some _ => true
  | None => false
  end.

(** A byte of the form 10xxxxxx: it continues the code point that the
    last byte of another form started. *)
Definition continuation (c : ascii) : bool :=
  ((128 <=? nat_of_ascii c) && (nat_of_ascii c <? 192))%nat.

(** [len(s)] on strings: the number of code points. *)
Fixpoint py_len (s : string) : nat :=
  match s with
  | EmptyString => 0%nat
  | String c rest => if continuation c then py_len rest else S (py_len rest)
  end.

(** [s[:n]] on strings, for [n >= 0]: the first [n] code points. *)
Fixpoint str_take (n : nat) (s : string) : string :=
  match s with
  | EmptyString => EmptyString
  | String c rest =>
      if continuation c then String c (str_take n rest)
      else match n with
           | O => EmptyString
           | S n' => String c (str_take n' rest)
           end
  end.

(** [l[i]] on lists: negative indices count from the end, anything else
    outside the list raises [IndexError] ([None]). *)
Definition py_index {A} (l : list A) (i : Z) : option A :=
  if 0 <=? i then l !! Z.to_nat i
  else if - Z.of_nat (length l) <=? i then l !! Z.to_nat (Z.of_nat (length l) + i)
  else None.

(** [l[:stop]] on lists: [None] keeps everything, a negative [stop] counts
    from the end. *)
Definition py_slice_to {A} (l : list A) (stop : option Z) : list A :=
  match stop with
  | None => l
  | Some n =>
      if 0 <=? n then take (Z.to_nat n) l
      else take (Z.to_nat (Z.of_nat (length l) + n)) l
  end.

(** The exceptions that can escape the methods modelled here. *)
Inductive exn :=
  | IndexError
  | KeyError (key : string)
  | TypeError
  | ValueError.

(** Library functions used by the parser. *)
Class PyLib := {
  (** [int(s)]; [None] when it raises [ValueError], as on the empty string *)
  py_int : string → option Z;
  py_int_empty : py_int "" = None;
  (** [urllib.parse.urljoin(base, href)]; [None] when it raises
      [ValueError], as on a reference whose host part has an unbalanced
      bracket ([//[]) *)
  urljoin : string → string → option string;
  (** [parse_qs(urlparse(url).query).get('user', [''])[0]], on a URL that
      [urlparse] accepts; the URLs that [analyze_author_research] passes
      are results of [urljoin] *)
  query_user : string → string;
}.

(** ** Pages *)

(** An [<a>] element: its stripped text and its [href] attribute. *)
Record anchor := Anchor {
  a_text : string;
  a_href : option string;
}.

(** [link.get('href', '')] *)
Definition get_href (a : anchor) : string := default "" (a_href a).

(** The [td.gsc_a_t] cell of a listing row. *)
Record title_cell_t := TitleCell {
  (** [title_cell.find('a')] *)
  title_link : option anchor;
  (** texts of [title_cell.find_all('div', class_='gs_gray')] *)
  gray_divs : list string;
}.

(** A [tr.gsc_a_tr] row of the publication table. *)
Record row := Row {
  (** [row.find('td', class_='gsc_a_t')] *)
  title_cell : option title_cell_t;
  (** [row.find('td', class_='gsc_a_c')], with the text of its first [<a>] *)
  citations_cell : option (option string);
  (** [row.find('td', class_='gsc_a_y')], with the text of its first [<span>] *)
  year_cell : option (option string);
}.

(** A [div.gs_scl] of the detail table: the texts of its
    [div.gsc_oci_field] and [div.gsc_oci_value], when present. *)
Record detail_row := DetailRow {
  field_div : option string;
  value_div : option string;
}.

(** A publication detail page. *)
Record detail_page := DetailPage {
  (** the [div.gs_scl] rows of [div#gsc_oci_table], when the table exists *)
  details_table : option (list detail_row);
  (** text of [div#gsc_oci_descr] *)
  description_div : option string;
}.

(** An [h4.gs_rt2] heading of the profile table. *)
Record profile_heading := ProfileHeading {
  (** [h4.find('a')] *)
  h4_link : option anchor;
  (** [h4.parent.get_text(strip=True)], when [h4.parent] exists *)
  h4_parent_text : option string;
}.

(** A search result page. *)
Record search_page := SearchPage {
  (** text of the first [h3.gs_rt] *)
  profile_header : option string;
  (** the [h4.gs_rt2] headings of the table that follows that header *)
  profile_table : option (list profile_heading);
}.

(** The site: what each of the three kinds of request returns. The listing
    is keyed by the [user] and [cstart] parameters, the other parameters
    being constants. [get_profile_papers] requests strictly increasing
    offsets, so a site that answers by offset is as general as one that
    answers by request number. *)
Record web := Web {
  search : string → option search_page;
  listing : string → nat → option (list row);
  detail : string → option detail_page;
}.

(** A candidate profile: the dict with keys [name], [url], [info]. *)
Record profile := Profile {
  name : string;
  url : string;
  info : string;
}.

Definition base_url : string := "https://scholar.google.com".

Section Parser.
Context `{PyLib}.

(** ** [search_author_profiles] *)

(** The body of [for h4 in author_links]: the profile that it appends, if
    any, or the exception that [urljoin] raised. *)
Definition profile_of_heading (h4 : profile_heading) : exn + option profile :=
  match h4_link h4 with
  | Some link =>
      if str_contains "/citations?user=" (get_href link) then
        match urljoin base_url (get_href link) with
        | Some profile_url =>
            let profile_name := a_text link in
            let profile_info := default profile_name (h4_parent_text h4) in
            inr (Some (Profile profile_name profile_url profile_info))
        | None => inl ValueError
        end
      else inr None
  | None => inr None
  end.

(** The loop [for h4 in author_links]; an exception ends it. *)
Fixpoint for_headings (author_links : list profile_heading) (profiles : list profile)
    : exn + list profile :=
  match author_links with
  | [] => inr profiles
  | h4 :: rest =>
      match profile_of_heading h4 with
      | inl e => inl e
      | inr (Some p) => for_headings rest (profiles ++ [p])
      | inr None => for_headings rest profiles
      end
  end.

(** The [try] covers the request and the loop: a failed request and an
    exception of the loop both end in [return []], whatever the loop had
    collected. *)
Definition search_author_profiles (w : web) (author_name : string) : list profile :=
  match search w author_name with
  | Some soup =>
      let profiles : list profile := [] in
      let body :=
        match profile_header soup with
        | Some header_text =>
            if str_contains "User profiles for" header_text then
              match profile_table soup with
              | Some author_links => for_headings author_links profiles
              | None => inr profiles
              end
            else inr profiles
        | None => inr profiles
        end in
      match body with
      | inr profiles => profiles
      | inl e => []
      end
  | None => []
  end.

(** ** [extract_paper_info] *)

(** How the body of the [try] ends: the dict [paper_info] as the body left
    it, and the exception when a call raised. The queries made on a parsed
    row do not raise; [urljoin] can. *)
Inductive attempt :=
  | Completed (paper_info : dict)
  | Raised (e : exn) (paper_info : dict).

(** The statements under [if title_link]. *)
Definition extract_title_link (link : anchor) (paper_info : dict) : attempt :=
  let paper_info := <["title" := a_text link]> paper_info in
  let detail_href := get_href link in
  if truthy_str detail_href then
    match urljoin base_url detail_href with
    | Some detail_url => Completed (<["detail_url" := detail_url]> paper_info)
    | None => Raised ValueError paper_info
    end
  else Completed paper_info.

(** The statements under [if title_cell]. *)
Definition extract_title_cell (c : title_cell_t) (paper_info : dict) : attempt :=
  match
    match title_link c with
    | Some link => extract_title_link link paper_info
    | None => Completed paper_info
    end
  with
  | Raised e paper_info => Raised e paper_info
  | Completed paper_info =>
      let paper_info :=
        match gray_divs c with
        | authors :: _ => <["authors" := authors]> paper_info
        | [] => paper_info
        end in
      Completed
        match gray_divs c with
        | _ :: venue :: _ => <["venue" := venue]> paper_info
        | _ => paper_info
        end
  end.

(** The citations and the year, which follow the title cell in the
    [try]. *)
Definition extract_counts (r : row) (paper_info : dict) : dict :=
  let paper_info :=
    match citations_cell r with
    | Some (Some citations) => <["citations" := citations]> paper_info
    | Some None => <["citations" := "0"]> paper_info
    | None => paper_info
    end in
  match year_cell r with
  | Some (Some year) => <["year" := year]> paper_info
  | _ => paper_info
  end.

(** [user_id] is not used by the body. After an exception the [except]
    branch prints it, and the method returns the dict as the [try] left
    it. *)
Definition extract_paper_info (r : row) (user_id : string) : dict :=
  let paper_info : dict := ∅ in
  let body :=
    match
      match title_cell r with
      | Some c => extract_title_cell c paper_info
      | None => Completed paper_info
      end
    with
    | Raised e paper_info => Raised e paper_info
    | Completed paper_info => Completed (extract_counts r paper_info)
    end in
  match body with
  | Completed paper_info => paper_info
  | Raised e paper_info => paper_info
  end.

(** ** [get_profile_papers] *)

(** [max_papers and len(papers) >= max_papers] *)
Definition cap_reached (max_papers : option Z) (papers : list dict) : bool :=
  match max_papers with
  | Some n => truthy_int max_papers && (n <=? Z.of_nat (length papers))
  | None => false
  end.

(** The year check: [true] when the row makes the method return. A year
    that [int] rejects leaves the row in. *)
Definition below_year_limit (year_limit : option Z) (paper_info : dict) : bool :=
  match year_limit with
  | Some limit =>
      if truthy_int year_limit then
        match paper_info !! "year" with
        | Some year =>
            if truthy_str year then
              match py_int year with
              | Some paper_year => paper_year <? limit
              | None => false
              end
            else false
        | None => false
        end
      else false
  | None => false
  end.

(** How the [for row in paper_rows] loop ends. *)
Inductive for_exit :=
  | Returned (papers : list dict)
  | Exhausted (papers : list dict).

Definition exit_papers (e : for_exit) : list dict :=
  match e with Returned papers | Exhausted papers => papers end.

Fixpoint for_rows (user_id : string) (max_papers year_limit : option Z)
    (paper_rows : list row) (papers : list dict) : for_exit :=
  match paper_rows with
  | [] => Exhausted papers
  | r :: rest =>
      if cap_reached max_papers papers then Returned papers
      else
        let paper_info := extract_paper_info r user_id in
        if truthy_dict paper_info then
          if below_year_limit year_limit paper_info then Returned papers
          else for_rows user_id max_papers year_limit rest (papers ++ [paper_info])
        else for_rows user_id max_papers year_limit rest papers
  end.

(** What [get_profile_papers] returns, with the [cstart] values it
    requested, in order. *)
Record lister_result := ListerResult {
  papers_of : list dict;
  requests_of : list nat;
}.

Definition page_size : nat := 100.

Fixpoint while_pages (fuel : nat) (w : web) (user_id : string)
    (max_papers year_limit : option Z)
    (papers : list dict) (start_index : nat) (requests : list nat)
    : option lister_result :=
  match fuel with
  | O => None
  | S fuel' =>
      let requests := requests ++ [start_index] in
      match listing w user_id start_index with
      | None => Some (ListerResult papers requests)
      | Some [] => Some (ListerResult papers requests)
      | Some paper_rows =>
          match for_rows user_id max_papers year_limit paper_rows papers with
          | Returned papers => Some (ListerResult papers requests)
          | Exhausted papers =>
              let start_index := (start_index + length paper_rows)%nat in
              if (length paper_rows <? page_size)%nat
              then Some (ListerResult papers requests)
              else while_pages fuel' w user_id max_papers year_limit
                     papers start_index requests
          end
      end
  end.

Definition get_profile_papers (fuel : nat) (w : web) (profile_url : string)
    (max_papers year_limit : option Z) : option lister_result :=
  let user_id := query_user profile_url in
  if negb (truthy_str user_id) then Some (ListerResult [] [])
  else while_pages fuel w user_id max_papers year_limit [] 0%nat [].

(** ** [get_paper_details] *)

Definition add_detail_row (details : dict) (r : detail_row) : dict :=
  match field_div r, value_div r with
  | Some field, Some value => <[field := value]> details
  | _, _ => details
  end.

(** Any exception of the request gives the empty dict. *)
Definition get_paper_details (w : web) (paper_detail_url : string) : dict :=
  match detail w paper_detail_url with
  | Some soup =>
      let details : dict := ∅ in
      let details :=
        match details_table soup with
        | Some rows => foldl add_detail_row details rows
        | None => details
        end in
      match description_div soup with
      | Some text => <["abstract" := text]> details
      | None => details
      end
  | None => ∅
  end.

(** [paper.update(details)]: the keys of [details] win. *)
Definition dict_update (paper details : dict) : dict := details ∪ paper.

(** ** The enrichment stage of [analyze_author_research]

    The dicts of [papers_to_process] are pairwise distinct objects, each
    created by its own call of [extract_paper_info]; object [k] is the one
    at position [k], and the store that [process_paper] mutates is the list
    of their current contents. A work item [(paper, index)] holds the
    object and its position. *)

(** What [process_paper] makes of the contents of its paper. *)
Definition enriched (w : web) (paper : dict) : dict :=
  match paper !! "detail_url" with
  | Some detail_url =>
      let details := get_paper_details w detail_url in
      dict_update paper details
  | None => paper
  end.

Definition process_paper (w : web) (store : list dict) (paper_data : nat * nat)
    : list dict * (nat * nat) :=
  let '(paper, index) := paper_data in
  (alter (enriched w) paper store, (paper, index)).

(** [[(paper, i) for i, paper in enumerate(papers_to_process)]] *)
Definition enumerate_papers (papers_to_process : list dict) : list (nat * nat) :=
  imap (λ i _, (i, i)) papers_to_process.

(** The pool runs the work items to completion in some order; each item
    touches its own dict only, so a run of the pool is a sequence of
    [process_paper] calls in the order of completion. *)
Definition run_pool (w : web) (completion : list (nat * nat)) (store : list dict)
    : list dict :=
  foldl (λ store paper_data, (process_paper w store paper_data).1) store completion.

(** The results of the work items [l]; [process_paper] returns the pair it
    was given. *)
Definition pool_results (w : web) (store : list dict) (l : list (nat * nat))
    : list (nat * nat) :=
  (λ paper_data, (process_paper w store paper_data).2) <$> l.

(** [detailed_papers[index] = paper], for each result; an index outside
    the list raises. *)
Fixpoint assemble (results : list (nat * nat)) (detailed_papers : list (option nat))
    : exn + list (option nat) :=
  match results with
  | [] => inr detailed_papers
  | (paper, index) :: rest =>
      if decide (index < length detailed_papers)%nat
      then assemble rest (<[index := Some paper]> detailed_papers)
      else inl IndexError
  end.

(** The contents of the objects of [detailed_papers]; a slot left at
    [None] is kept as [None]. *)
Definition contents (store : list dict) (detailed_papers : list (option nat))
    : list (option dict) :=
  (λ slot : option nat, slot ≫= (store !!.)) <$> detailed_papers.

(** The stage, for a pool that completes the work items in the order
    [completion] and hands the results over in the order [arrival]
    ([executor.map] hands them over in the order of submission). *)
Definition enrich (w : web) (completion arrival : list (nat * nat))
    (papers_to_process : list dict) : exn + list (option dict) :=
  let store := run_pool w completion papers_to_process in
  let results := pool_results w store arrival in
  let detailed_papers := replicate (length papers_to_process) None in
  match assemble results detailed_papers with
  | inr detailed_papers => inr (contents store detailed_papers)
  | inl e => inl e
  end.

(** ** The summary printed by [analyze_author_research] *)

Definition nl : string := String (ascii_of_nat 10) "".

(** [f"{s[:n]}{'...' if len(s) > n else ''}"] *)
Definition clip (n : nat) (s : string) : string :=
  str_take n s +:+ (if (n <? py_len s)%nat then "..." else "").

(** [print(f"<label>: {paper[key]}")] under [if key in paper] *)
Definition line_if (paper : dict) (key label : string) : list string :=
  match paper !! key with
  | Some v => [label +:+ ": " +:+ v]
  | None => []
  end.

(** The lines printed for one item of [enumerate(detailed_papers, 1)].
    [paper['title']] raises [KeyError] when the key is missing and
    [TypeError] on a slot left at [None], before anything is printed for
    the item. *)
Definition summary_lines (i : nat) (slot : option dict) : exn + list string :=
  match slot with
  | None => inl TypeError
  | Some paper =>
      match paper !! "title" with
      | None => inl (KeyError "title")
      | Some title =>
          inr ([nl +:+ "--- Paper " +:+ pretty i +:+ ": " +:+ clip 80 title +:+ " ---";
                "Year: " +:+ default "Unknown" (paper !! "year");
                "Citations: " +:+ default "0" (paper !! "citations");
                "Authors: " +:+ default "Unknown" (paper !! "authors");
                "Venue: " +:+ default "Unknown" (paper !! "venue")]
               ++ match paper !! "abstract", paper !! "Description" with
                  | Some abstract, _ => ["Abstract: " +:+ clip 500 abstract]
                  | None, Some description => ["Description: " +:+ clip 500 description]
                  | None, None => []
                  end
               ++ line_if paper "Journal" "Journal"
               ++ line_if paper "Volume" "Volume"
               ++ line_if paper "Pages" "Pages"
               ++ line_if paper "Publisher" "Publisher"
               ++ line_if paper "Total citations" "Scholar Citations")
      end
  end.

(** The loop over [enumerate(detailed_papers, 1)]: the lines printed, and
    the exception that ended the loop, if any. *)
Fixpoint print_summary (i : nat) (detailed_papers : list (option dict))
    : list string * option exn :=
  match detailed_papers with
  | [] => ([], None)
  | paper :: rest =>
      match summary_lines i paper with
      | inl e => ([], Some e)
      | inr lines =>
          let '(more, e) := print_summary (S i) rest in
          (lines ++ more, e)
      end
  end.

(** ** [analyze_author_research] *)

(** What a run leaves behind: the lines printed by the method itself (the
    lines printed by the methods it calls are left out), and its return
    value or the exception that ended it. *)
Record run := Run {
  stdout : list string;
  outcome : exn + list (option dict);
}.

Definition year_limit_line (year_limit : option Z) : list string :=
  match year_limit with
  | Some limit =>
      if truthy_int year_limit
      then ["Year limit: " +:+ pretty limit +:+ " (will stop at papers from "
              +:+ pretty (limit - 1) +:+ " or earlier)"]
      else []
  | None => []
  end.

Definition profile_lines (i : nat) (p : profile) : list string :=
  [pretty (i + 1)%nat +:+ ". " +:+ name p;
   "   Info: " +:+ info p;
   "   URL: " +:+ url p].

(** [schedule] is the order in which the pool completes the work items it
    is given; [num_workers] bounds how many run at once and is otherwise
    seen only by the constructor of the pool, which rejects a value below
    one. *)
Definition analyze_author_research (fuel : nat) (w : web)
    (schedule : list (nat * nat) → list (nat * nat))
    (author_name : string) (max_papers : option Z) (profile_index : Z)
    (num_workers : Z) (year_limit : option Z) : option run :=
  let out :=
    ["=== Analyzing research for: " +:+ author_name +:+ " ===";
     "Using " +:+ pretty num_workers +:+ " workers for parallel processing"]
    ++ year_limit_line year_limit ++ [""] in
  (* Step 1: find author profiles *)
  let profiles := search_author_profiles w author_name in
  match profiles with
  | [] => Some (Run (out ++ ["No profiles found!"]) (inr []))
  | _ :: _ =>
      let out :=
        out ++ ["Found " +:+ pretty (length profiles) +:+ " profile(s):"]
            ++ mjoin (imap profile_lines profiles) ++ [""] in
      let '(out, profile_index) :=
        if Z.of_nat (length profiles) <=? profile_index
        then (out ++ ["Profile index " +:+ pretty profile_index
                        +:+ " out of range, using profile 0"], 0)
        else (out, profile_index) in
      match py_index profiles profile_index with
      | None => Some (Run out (inl IndexError))
      | Some chosen_profile =>
          let out := out ++ ["Using profile: " +:+ name chosen_profile] in
          (* Step 2: get papers from profile *)
          match get_profile_papers fuel w (url chosen_profile) max_papers year_limit with
          | None => None
          | Some listed =>
              let papers := papers_of listed in
              let out :=
                out ++ [nl +:+ "Found " +:+ pretty (length papers) +:+ " papers";
                        "Fetching detailed information using " +:+ pretty num_workers
                          +:+ " parallel workers..."] in
              (* Step 3: detailed info for each paper *)
              let papers_to_process := py_slice_to papers max_papers in
              let paper_data := enumerate_papers papers_to_process in
              if num_workers <=? 0 then Some (Run out (inl ValueError))
              else
                match enrich w (schedule paper_data) paper_data papers_to_process with
                | inl e => Some (Run out (inl e))
                | inr detailed_papers =>
                    let out := out ++ [nl +:+ "=== Research Summary ==="] in
                    match print_summary 1 detailed_papers with
                    | (lines, Some e) => Some (Run (out ++ lines) (inl e))
                    | (lines, None) => Some (Run (out ++ lines) (inr detailed_papers))
                    end
                end
          end
      end
  end.

End Parser.

(** ** An instance of the library, for running the parser

    [int_decimal] is [int] on an optional sign followed by ASCII digits,
    and rejects everything else; [urljoin_root] is [urljoin] for a
    root-relative reference against a base without a path, and it rejects
    a reference that opens a bracketed host without closing it, on which
    [urljoin] raises "Invalid IPv6 URL"; [user_param] reads the [user]
    parameter when it is the first of the query. *)

Definition digit_value (c : ascii) : option Z :=
  let n := nat_of_ascii c in
  if ((48 <=? n) && (n <=? 57))%nat then Some (Z.of_nat (n - 48)) else None.

Fixpoint digits_value (acc : Z) (s : string) : option Z :=
  match s with
  | EmptyString => Some acc
  | String c rest =>
      match digit_value c with
      | Some d => digits_value (10 * acc + d) rest
      | None => None
      end
  end.

Definition unsigned_decimal (s : string) : option Z :=
  match s with
  | EmptyString => None
  | _ => digits_value 0 s
  end.

Definition int_decimal (s : string) : option Z :=
  match s with
  | String "-"%char rest => Z.opp <$> unsigned_decimal rest
  | String "+"%char rest => unsigned_decimal rest
  | _ => unsigned_decimal s
  end.

Definition urljoin_root (base href : string) : option string :=
  if String.prefix "//[" href && negb (str_contains "]" href) then None
  else Some (base +:+ href).

Fixpoint until_amp (s : string) : string :=
  match s with
  | EmptyString => EmptyString
  | String c rest => if bool_decide (c = "&"%char) then EmptyString else String c (until_amp rest)
  end.

Definition user_param (profile_url : string) : string :=
  match String.index 0 "?user=" profile_url with
  | Some i =>
      until_amp (String.substring (i + 6) (String.length profile_url) profile_url)
  | None => ""
  end.

#[export] Instance sample_lib : PyLib := {|
  py_int := int_decimal;
  py_int_empty := eq_refl;
  urljoin := urljoin_root;
  query_user := user_param;
|}.

(** ** Sample sites *)

Definition sample_url : string :=
  "https://scholar.google.com/citations?user=abc123&hl=en".

Definition sample_search : search_page :=
  SearchPage (Some "User profiles for Ada Lovelace")
    (Some [ProfileHeading
             (Some (Anchor "Ada Lovelace" (Some "/citations?user=abc123&hl=en")))
             (Some "Ada LovelaceAnalytical Engine");
           ProfileHeading
             (Some (Anchor "A. A. Lovelace" (Some "/citations?user=xyz789&hl=en")))
             None]).

(** A site whose listing serves [pages offset] and whose detail pages are
    given by [details]. *)
Definition site (pages : nat → option (list row))
    (details : string → option detail_page) : web :=
  Web (λ _, Some sample_search) (λ _ offset, pages offset) details.

(** A listing of one page. *)
Definition one_page (rows : list row) (offset : nat) : option (list row) :=
  if decide (offset = 0%nat) then Some rows else Some [].

(** A listing of a first page and a second page at offset 100. *)
Definition two_pages (first second : list row) (offset : nat) : option (list row) :=
  if decide (offset = 0%nat) then Some first
  else if decide (offset = 100%nat) then Some second
  else Some [].

Definition no_details (detail_url : string) : option detail_page := None.

Definition sample_details (detail_url : string) : option detail_page :=
  if decide (detail_url = "https://scholar.google.com/citations?view_op=view_citation&for=A")
  then Some (DetailPage
               (Some [DetailRow (Some "Journal") (Some "Scientific Memoirs");
                      DetailRow (Some "Total citations") None;
                      DetailRow (Some "Pages") (Some "666-731")])
               (Some "Notes by the translator"))
  else None.

(** A row with every cell. *)
Definition full_row (title year : string) : row :=
  Row (Some (TitleCell
               (Some (Anchor title (Some ("/citations?view_op=view_citation&for=" +:+ title))))
               ["A Lovelace"; "Notes, 1843"]))
      (Some (Some "12"))
      (Some (Some year)).

(** A row with every cell whose title link has a reference that
    [urljoin] rejects. *)
Definition rejected_row (title year : string) : row :=
  Row (Some (TitleCell (Some (Anchor title (Some "//[")))
               ["A Lovelace"; "Notes, 1843"]))
      (Some (Some "12"))
      (Some (Some year)).

(** A row without any of the three cells. *)
Definition blank_row : row := Row None None None.

(** A row with a year cell only. *)
Definition year_only_row (year : string) : row := Row None None (Some (Some year)).

(** A row with a title cell only. *)
Definition title_only_row (title : string) : row :=
  Row (Some (TitleCell (Some (Anchor title None)) [])) None None.

(** A row with an empty citations cell only. *)
Definition citations_only_row : row := Row None (Some None) None.

(** Rows in the order 2021, 2020, 2019, 2022. *)
Definition year_limit_rows : list row :=
  [full_row "A" "2021"; full_row "B" "2020"; full_row "C" "2019"; full_row "D" "2022"].

(** The record of [full_row]. *)
Definition full_record (title year : string) : dict :=
  {[ "title" := title;
     "detail_url" := "https://scholar.google.com/citations?view_op=view_citation&for=" +:+ title;
     "authors" := "A Lovelace";
     "venue" := "Notes, 1843";
     "citations" := "12";
     "year" := year ]}.

(** Three papers: one with a detail page, one without a detail reference,
    one whose detail request fails. *)
Definition sample_papers : list dict :=
  [full_record "A" "2021"; {[ "title" := "T" ]}; full_record "B" "2020"].

(** ** Reading a result of the lister against the pages served *)

Section ListerSpec.
Context `{PyLib}.

(** The rows of the page served at an offset; a failed request has none. *)
Definition page_rows (w : web) (user_id : string) (offset : nat) : list row :=
  default [] (listing w user_id offset).

(** The rows served for a sequence of requests, in source order. *)
Definition rows_served (w : web) (user_id : string) (requests : list nat) : list row :=
  mjoin (page_rows w user_id <$> requests).

(** The row carries a year that [int] accepts and that is below the limit
    in force. *)
Definition disqualifies (user_id : string) (year_limit : option Z) (r : row) : bool :=
  below_year_limit year_limit (extract_paper_info r user_id).

(** The rows before the first disqualifying row. *)
Fixpoint rows_before_stop (user_id : string) (year_limit : option Z)
    (rows : list row) : list row :=
  match rows with
  | [] => []
  | r :: rest =>
      if disqualifies user_id year_limit r then []
      else r :: rows_before_stop user_id year_limit rest
  end.

(** The records of the rows that yield at least one field. *)
Fixpoint summaries (user_id : string) (rows : list row) : list dict :=
  match rows with
  | [] => []
  | r :: rest =>
      let paper_info := extract_paper_info r user_id in
      if truthy_dict paper_info then paper_info :: summaries user_id rest
      else summaries user_id rest
  end.

(** How many more records the cap lets in after [n]; [None] when no cap
    is in force. *)
Definition room (max_papers : option Z) (n : nat) : option nat :=
  match max_papers with
  | Some cap => if truthy_int max_papers then Some (Z.to_nat (cap - Z.of_nat n)) else None
  | None => None
  end.

Definition take_room {A} (k : option nat) (l : list A) : list A :=
  match k with
  | Some k => take k l
  | None => l
  end.

(** The requests start at [start] and each next one is the previous one
    plus the number of rows it received. *)
Fixpoint offsets_from (w : web) (user_id : string) (start : nat)
    (requests : list nat) : Prop :=
  match requests with
  | [] => True
  | o :: rest =>
      o = start ∧ offsets_from w user_id (start + length (page_rows w user_id o)) rest
  end.

(** Every request whose page is shorter than a full page is the last. *)
Definition short_page_last (w : web) (user_id : string) (requests : list nat) : Prop :=
  ∀ i o, requests !! i = Some o →
    (length (page_rows w user_id o) < page_size)%nat →
    S i = length requests.

(** From [bound] on, the listing serves no full page. *)
Definition listing_ends (w : web) (user_id : string) (bound : nat) : Prop :=
  ∀ o, (bound ≤ o)%nat → (length (page_rows w user_id o) < page_size)%nat.

(** Every record whose year [int] accepts has a year of at least [limit]. *)
Definition years_at_least (limit : Z) (papers : list dict) : Prop :=
  ∀ paper year y,
    paper ∈ papers → paper !! "year" = Some year → py_int year = Some y → limit ≤ y.

(** Every record has a title, and it is not the empty string. *)
Definition all_titled (papers : list dict) : Prop :=
  Forall (λ paper : dict, ∃ title, paper !! "title" = Some title ∧ title ≠ "") papers.

(** [urljoin] raises on the reference of the title link of the row: the
    extraction ends there, with the title set and nothing else. *)
Definition detail_url_raises (r : row) : bool :=
  match title_cell r ≫= title_link with
  | Some link =>
      truthy_str (get_href link) && bool_decide (urljoin base_url (get_href link) = None)
  | None => false
  end.

(** The extraction reaches the year of the row, the year is present, [int]
    accepts it, and it is below [limit]. *)
Definition older_than (limit : Z) (r : row) : Prop :=
  detail_url_raises r = false
  ∧ ∃ year y, year_cell r = Some (Some year) ∧ py_int year = Some y ∧ y < limit.

(** [kept] is [served] cut before its first row that satisfies [P]. *)
Definition cut_at_first (P : row → Prop) (served kept : list row) : Prop :=
  Forall (λ r, ¬ P r) kept
  ∧ (kept = served ∨ ∃ r rest, served = kept ++ r :: rest ∧ P r).
(** The value that a row gives to a key: the fields that can be extracted
    from it. The title comes first; when [urljoin] raises on the reference
    of the title link, nothing else is extracted. *)
Definition extracted_field (r : row) (key : string) : option string :=
  if decide (key = "title") then a_text <$> (title_cell r ≫= title_link)
  else if detail_url_raises r then None
  else if decide (key = "detail_url") then
    link ← title_cell r ≫= title_link;
    if truthy_str (get_href link) then urljoin base_url (get_href link) else None
  else if decide (key = "authors") then c ← title_cell r; gray_divs c !! 0%nat
  else if decide (key = "venue") then c ← title_cell r; gray_divs c !! 1%nat
  else if decide (key = "citations") then default "0" <$> citations_cell r
  else if decide (key = "year") then mjoin (year_cell r)
  else None.

(** Nothing can be extracted from the row: no title link, no gray div, no
    citations cell, no year span. *)
Definition no_field (r : row) : Prop :=
  title_cell r ≫= title_link = None
  ∧ (c ← title_cell r; gray_divs c !! 0%nat) = None
  ∧ citations_cell r = None
  ∧ mjoin (year_cell r) = None.
End ListerSpec.

(** ** [main] *)

Section Main.
Context `{PyLib}.

(** The parsed command line: [--max-papers], [--profile-index] and
    [--num-workers] are integers with defaults, [--year-limit] and
    [--output] may be absent. *)
Record cli_args := CliArgs {
  args_author : string;
  args_max_papers : Z;
  args_profile_index : Z;
  args_num_workers : Z;
  args_year_limit : option Z;
  args_output : option string;
}.

(** What [main] leaves behind: the lines printed by [main] and by
    [analyze_author_research], the path and the value handed to
    [json.dump] if it is called, and the exception that ended the run if
    one did. Opening and writing the file are taken to succeed. *)
Record main_run := MainRun {
  main_stdout : list string;
  saved : option (string * list (option dict));
  uncaught : option exn;
}.

(** [args.output and papers] *)
Definition output_wanted (output : option string) (papers : list (option dict)) : bool :=
  match output, papers with
  | Some path, _ :: _ => truthy_str path
  | _, _ => false
  end.

Definition main (fuel : nat) (w : web) (schedule : list (nat * nat) → list (nat * nat))
    (args : cli_args) : option main_run :=
  match analyze_author_research fuel w schedule (args_author args)
          (Some (args_max_papers args)) (args_profile_index args)
          (args_num_workers args) (args_year_limit args) with
  | None => None
  | Some r =>
      match outcome r with
      | inl e => Some (MainRun (stdout r) None (Some e))
      | inr papers =>
          if output_wanted (args_output args) papers
          then Some (MainRun
                       (stdout r ++ [nl +:+ "Results saved to "
                                       +:+ default "" (args_output args)])
                       (Some (default "" (args_output args), papers)) None)
          else Some (MainRun (stdout r) None None)
      end
  end.

End Main.

(** ** More sample pages *)

(** A listing whose second page fails. *)
Definition failing_second_page (first : list row) (offset : nat) : option (list row) :=
  if decide (offset = 0%nat) then Some first else None.

(** A detail page with a repeated label, a row without a field div, and a
    description beside a table row labelled [abstract]. *)
Definition repeated_details : detail_page :=
  DetailPage
    (Some [DetailRow (Some "Pages") (Some "1-2");
           DetailRow (Some "abstract") (Some "from the table");
           DetailRow None (Some "no label");
           DetailRow (Some "Pages") (Some "3-4")])
    (Some "from the description").

(** A site without a recognisable profile section. *)
Definition site_without_profiles : web :=
  Web (λ _, Some (SearchPage (Some "Showing results") None)) (λ _ _, None) (λ _, None).

(** A site whose only candidate links to a profile URL without a user id. *)
Definition site_with_empty_user : web :=
  Web (λ _, Some (SearchPage (Some "User profiles for Ada Lovelace")
                    (Some [ProfileHeading
                             (Some (Anchor "Ada Lovelace" (Some "/citations?user=")))
                             None])))
      (λ _ _, None) (λ _, None).

(** ** Reading detail pages and listing records *)

(** The value of the last row of a detail table that has both divs and the
    label [key]. *)
Fixpoint last_field (rows : list detail_row) (key : string) : option string :=
  match rows with
  | [] => None
  | r :: rest =>
      match last_field rest key with
      | Some value => Some value
      | None =>
          match field_div r, value_div r with
          | Some field, Some value => if decide (field = key) then Some value else None
          | _, _ => None
          end
      end
  end.

(** What a detail page gives for a key: the description for [abstract],
    when there is one, else the last row of the table with that label. *)
Definition detail_field (page : detail_page) (key : string) : option string :=
  match description_div page with
  | Some text =>
      if decide (key = "abstract") then Some text
      else last_field (default [] (details_table page)) key
  | None => last_field (default [] (details_table page)) key
  end.

(** The keys that [extract_paper_info] can set. *)
Definition listing_keys : list string :=
  ["title"; "detail_url"; "authors"; "venue"; "citations"; "year"].

(** The slot is filled with a record that has a title. *)
Definition titled_slot (slot : option dict) : Prop :=
  ∃ paper : dict, slot = Some paper ∧ is_Some (paper !! "title").

(** The headings of the profile section of the search page, when the page
    has a header that names the section and a table after it. *)
Definition profile_headings (w : web) (author_name : string) : list profile_heading :=
  match search w author_name with
  | Some soup =>
      match profile_header soup, profile_table soup with
      | Some header_text, Some author_links =>
          if str_contains "User profiles for" header_text then author_links else []
      | _, _ => []
      end
  | None => []
  end.





(** The slot holds the enrichment of the record of one of the rows
    [served], a record with at least one field, and the enriched record has
    a title. *)
Definition final_record `{PyLib} (w : web) (user_id : string) (served : list row)
    (slot : option dict) : Prop :=
  ∃ r, r ∈ served
       ∧ extract_paper_info r user_id ≠ ∅
       ∧ slot = Some (enriched w (extract_paper_info r user_id))
       ∧ is_Some (enriched w (extract_paper_info r user_id) !! "title").

(** [shown] is [s] when [s] has at most [n] code points; otherwise it is
    the first [n] code points of [s], cut where a code point starts,
    followed by three dots. *)
Definition cut_to (n : nat) (s shown : string) : Prop :=
  ((py_len s ≤ n)%nat → shown = s)
  ∧ ((n < py_len s)%nat →
     ∃ kept c rest,
       s = kept +:+ String c rest
       ∧ py_len kept = n
       ∧ continuation c = false
       ∧ shown = kept +:+ "...").

(** The letter e with an acute accent: one code point, two bytes. *)
Definition e_acute : string :=
  String (ascii_of_nat 195) (String (ascii_of_nat 169) EmptyString).

Fixpoint repeat_str (n : nat) (s : string) : string :=
  match n with
  | O => EmptyString
  | S n' => s +:+ repeat_str n' s
  end.

(** * Properties *)

(** ** The lister *)

Section ListerFacts.
Context `{PyLib}.

Lemma below_year_limit_empty year_limit : below_year_limit year_limit ∅ = false.
Proof.
  unfold below_year_limit. destruct year_limit as [limit|]; [|done].
  rewrite lookup_empty. by destruct (truthy_int _).
Qed.

Lemma truthy_dict_false (d : dict) : truthy_dict d = false ↔ d = ∅.
Proof.
  unfold truthy_dict. rewrite negb_false_iff, bool_decide_eq_true. done.
Qed.

Lemma truthy_dict_true (d : dict) : truthy_dict d = true ↔ d ≠ ∅.
Proof.
  unfold truthy_dict. rewrite negb_true_iff, bool_decide_eq_false. done.
Qed.

Lemma cap_reached_room max_papers (papers : list dict) :
  cap_reached max_papers papers = true ↔ room max_papers (length papers) = Some 0%nat.
Proof.
  unfold cap_reached, room. destruct max_papers as [cap|]; [|done].
  destruct (truthy_int (Some cap)); simpl; [|done].
  rewrite Z.leb_le. split.
  - intros. f_equal. lia.
  - intros [= Hz]. lia.
Qed.

Lemma room_succ max_papers n :
  room max_papers n ≠ Some 0%nat →
  room max_papers n = S <$> room max_papers (S n).
Proof.
  unfold room. destruct max_papers as [cap|]; [|done].
  destruct (truthy_int (Some cap)); simpl; [|done].
  intros Hne. f_equal.
  destruct (decide (cap - Z.of_nat n ≤ 0)) as [Hle|Hgt].
  - exfalso. apply Hne. f_equal. lia.
  - lia.
Qed.

(** The [for] loop over one page, in closed form. *)
Lemma for_rows_papers user_id max_papers year_limit rows papers :
  exit_papers (for_rows user_id max_papers year_limit rows papers)
  = papers ++ take_room (room max_papers (length papers))
                (summaries user_id (rows_before_stop user_id year_limit rows)).
Proof.
  revert papers.
  induction rows as [|r rest IH]; intros papers; cbn [for_rows rows_before_stop].
  - destruct (room _ _); simpl; by rewrite ?take_nil, app_nil_r.
  - destruct (cap_reached max_papers papers) eqn:Hcap.
    { apply cap_reached_room in Hcap. rewrite Hcap. simpl. by rewrite app_nil_r. }
    assert (room max_papers (length papers) ≠ Some 0%nat) as Hroom.
    { intros Hr. apply cap_reached_room in Hr. congruence. }
    unfold disqualifies.
    destruct (truthy_dict (extract_paper_info r user_id)) eqn:Hd.
    + destruct (below_year_limit year_limit _) eqn:Hy; cbn [summaries exit_papers].
      { destruct (room _ _); simpl; by rewrite ?take_nil, app_nil_r. }
      rewrite Hd, IH, length_app, <- app_assoc. simpl. f_equal.
      rewrite (room_succ _ _ Hroom), Nat.add_1_r.
      by destruct (room max_papers (S (length papers))).
    + apply truthy_dict_false in Hd as Hempty. rewrite Hempty, below_year_limit_empty.
      cbn [summaries]. rewrite Hd. apply IH.
Qed.

(** Rows that follow a [return] are not looked at. *)
Lemma for_rows_app user_id max_papers year_limit rows1 rows2 papers :
  for_rows user_id max_papers year_limit (rows1 ++ rows2) papers
  = match for_rows user_id max_papers year_limit rows1 papers with
    | Returned papers' =>
        Returned papers'
    | Exhausted papers' => for_rows user_id max_papers year_limit rows2 papers'
    end.
Proof.
  revert papers.
  induction rows1 as [|r rest IH]; intros papers; cbn [for_rows app]; [done|].
  destruct (cap_reached _ _); [done|].
  destruct (truthy_dict _); [|apply IH].
  destruct (below_year_limit _ _); [done|apply IH].
Qed.

Lemma rows_served_cons w user_id o requests :
  rows_served w user_id (o :: requests)
  = page_rows w user_id o ++ rows_served w user_id requests.
Proof. done. Qed.

Lemma rows_served_one w user_id o :
  rows_served w user_id [o] = page_rows w user_id o.
Proof. unfold rows_served. simpl. apply app_nil_r. Qed.

(** The [while] loop: the requests it adds, and its result as one pass of
    the [for] loop over all the rows served. *)
Lemma while_pages_spec fuel w user_id max_papers year_limit papers start requests res :
  while_pages fuel w user_id max_papers year_limit papers start requests = Some res →
  ∃ new,
    requests_of res = requests ++ new
    ∧ offsets_from w user_id start new
    ∧ short_page_last w user_id new
    ∧ papers_of res
      = exit_papers (for_rows user_id max_papers year_limit
                       (rows_served w user_id new) papers).
Proof.
  revert papers start requests.
  induction fuel as [|fuel IH]; intros papers start requests; cbn [while_pages]; [done|].
  assert (short_page_last w user_id [start]) as Hone.
  { intros [|i] o; [done|]. by destruct i. }
  destruct (listing w user_id start) as [[|r rows]|] eqn:Hpage.
  - intros [= <-]. exists [start]. repeat split; try done.
    by rewrite rows_served_one; unfold page_rows; rewrite Hpage.
  - set (paper_rows := r :: rows) in *.
    assert (page_rows w user_id start = paper_rows) as Hrows.
    { unfold page_rows. by rewrite Hpage. }
    destruct (for_rows user_id max_papers year_limit paper_rows papers)
      as [papers'|papers'] eqn:Hfor.
    + intros [= <-]. exists [start]. repeat split; try done.
      by rewrite rows_served_one, Hrows, Hfor.
    + destruct (length paper_rows <? page_size)%nat eqn:Hlen.
      * intros [= <-]. exists [start]. repeat split; try done.
        by rewrite rows_served_one, Hrows, Hfor.
      * intros Hrec. apply IH in Hrec as (new & Hreq & Hoff & Hshort & Hpapers).
        exists (start :: new). repeat split.
        -- by rewrite Hreq, <- app_assoc.
        -- by rewrite Hrows.
        -- intros [|i] o; simpl.
           ++ intros [= <-]. rewrite Hrows. apply Nat.ltb_ge in Hlen. lia.
           ++ intros Hi Ho. f_equal. by eapply Hshort.
        -- by rewrite rows_served_cons, Hrows, for_rows_app, Hfor.
  - intros [= <-]. exists [start]. repeat split; try done.
    by rewrite rows_served_one; unfold page_rows; rewrite Hpage.
Qed.


(** The loop ends on a listing that ends. *)
Lemma while_pages_returns n w user_id max_papers year_limit papers start requests bound :
  listing_ends w user_id bound →
  (bound ≤ start + n)%nat →
  is_Some (while_pages (S n) w user_id max_papers year_limit papers start requests).
Proof.
  intros Hends. revert papers start requests.
  induction n as [|n IH]; intros papers start requests Hbound.
  - cbn [while_pages].
    specialize (Hends start ltac:(lia)). unfold page_rows in Hends.
    destruct (listing w user_id start) as [[|r rows]|]; try done.
    destruct (for_rows _ _ _ _ _); [done|].
    change (length (r :: rows) < page_size)%nat in Hends.
    apply Nat.ltb_lt in Hends. by rewrite Hends.
  - remember (S n) as fuel. cbn [while_pages].
    destruct (listing w user_id start) as [[|r rows]|]; try done.
    destruct (for_rows _ _ _ _ _); [done|].
    destruct (_ <? _)%nat eqn:Hlen; [done|].
    subst fuel. apply IH. apply Nat.ltb_ge in Hlen. unfold page_size in Hlen. lia.
Qed.

(** [get_profile_papers], read against the pages served. *)
Lemma get_profile_papers_spec fuel w profile_url max_papers year_limit res :
  get_profile_papers fuel w profile_url max_papers year_limit = Some res →
  let user_id := query_user profile_url in
  offsets_from w user_id 0 (requests_of res)
  ∧ short_page_last w user_id (requests_of res)
  ∧ papers_of res
    = take_room (room max_papers 0)
        (summaries user_id
           (rows_before_stop user_id year_limit
              (rows_served w user_id (requests_of res)))).
Proof.
  unfold get_profile_papers. cbv zeta.
  set (user_id := query_user profile_url). intros Hrun.
  destruct (truthy_str user_id); simpl in Hrun.
  - apply while_pages_spec in Hrun as (new & Hreq & Hoff & Hshort & Hpapers).
    simpl in Hreq. rewrite Hreq. repeat split; try done.
    by rewrite Hpapers, for_rows_papers.
  - injection Hrun as <-. simpl. repeat split; try done.
    destruct (room _ _); simpl; by rewrite ?take_nil.
Qed.


Lemma get_profile_papers_returns w profile_url max_papers year_limit bound :
  listing_ends w (query_user profile_url) bound →
  is_Some (get_profile_papers (S bound) w profile_url max_papers year_limit).
Proof.
  intros Hends. unfold get_profile_papers. destruct (negb _); [done|].
  eapply while_pages_returns; [done|lia].
Qed.

End ListerFacts.

(** ** Extraction and the rows kept *)

Section ExtractFacts.
Context `{PyLib}.

Lemma detail_url_raises_spec r :
  detail_url_raises r = true ↔
  ∃ link, title_cell r ≫= title_link = Some link
          ∧ get_href link ≠ ""
          ∧ urljoin base_url (get_href link) = None.
Proof.
  unfold detail_url_raises, truthy_str.
  destruct (title_cell r ≫= title_link) as [link|].
  - rewrite andb_true_iff, negb_true_iff, bool_decide_eq_false, bool_decide_eq_true.
    split; [by eauto|]. by intros (? & [= <-] & ? & ?).
  - split; [done|]. by intros (? & ? & _).
Qed.

(** The title cell, read key by key; the body raises exactly on a
    reference that [urljoin] rejects. *)
Lemma extract_title_cell_lookup c key :
  match extract_title_cell c ∅ with
  | Completed paper_info =>
      detail_url_raises (Row (Some c) None None) = false
      ∧ paper_info !! key = extracted_field (Row (Some c) None None) key
  | Raised e paper_info =>
      detail_url_raises (Row (Some c) None None) = true
      ∧ paper_info !! key = extracted_field (Row (Some c) None None) key
  end.
Proof.
  unfold extract_title_cell, extract_title_link, extracted_field, detail_url_raises.
  destruct c as [[link|] divs]; simpl.
  - destruct (truthy_str (get_href link)); simpl.
    + destruct (urljoin base_url (get_href link)) as [detail_url|]; simpl.
      * split; [done|].
        destruct divs as [|authors [|venue divs]]; simpl;
          repeat case_decide; subst; by simplify_map_eq.
      * split; [done|]. repeat case_decide; subst; by simplify_map_eq.
    + split; [done|].
      destruct divs as [|authors [|venue divs]]; simpl;
        repeat case_decide; subst; by simplify_map_eq.
  - split; [done|].
    destruct divs as [|authors [|venue divs]]; simpl;
      repeat case_decide; subst; by simplify_map_eq.
Qed.

Lemma extract_counts_lookup r (paper_info : dict) key :
  detail_url_raises r = false →
  (∀ k, paper_info !! k = extracted_field (Row (title_cell r) None None) k) →
  extract_counts r paper_info !! key = extracted_field r key.
Proof.
  intros Hruns Hbase. unfold extract_counts.
  assert (detail_url_raises (Row (title_cell r) None None) = false) as Hruns' by done.
  destruct r as [cell cit yr]. simpl in *.
  destruct (decide (key = "year")) as [->|Hyear].
  - destruct yr as [[year|]|], cit as [[citations|]|];
      rewrite ?lookup_insert_eq, ?lookup_insert_ne, ?Hbase by done;
      unfold extracted_field; simpl; by rewrite Hruns, ?Hruns'.
  - destruct (decide (key = "citations")) as [->|Hcit].
    + destruct yr as [[year|]|], cit as [[citations|]|];
        rewrite ?lookup_insert_ne, ?lookup_insert_eq, ?Hbase by done;
        unfold extracted_field; simpl; by rewrite Hruns, ?Hruns'.
    + destruct yr as [[year|]|], cit as [[citations|]|];
        rewrite ?lookup_insert_ne, ?Hbase by done;
        unfold extracted_field; simpl;
        by rewrite !(decide_False (P := key = "year")),
             !(decide_False (P := key = "citations")) by done.
Qed.

(** The record of a row, read key by key. *)
Lemma extract_paper_info_lookup r user_id key :
  extract_paper_info r user_id !! key = extracted_field r key.
Proof.
  unfold extract_paper_info. cbv zeta.
  destruct (title_cell r) as [c|] eqn:Hcell.
  - pose proof (extract_title_cell_lookup c) as Hc.
    assert (∀ b, detail_url_raises (Row (Some c) None None) = b → detail_url_raises r = b)
      as Hsame.
    { intros b <-. unfold detail_url_raises. by rewrite Hcell. }
    destruct (extract_title_cell c ∅) as [paper_info|e paper_info].
    + apply extract_counts_lookup; [apply Hsame, (Hc key)|].
      rewrite Hcell. intros k. apply (Hc k).
    + destruct (Hc key) as [Hraises ->]. apply Hsame in Hraises as Hraises'.
      unfold extracted_field. rewrite Hraises, Hraises'. simpl. by rewrite Hcell.
  - assert (detail_url_raises r = false) as Hruns.
    { unfold detail_url_raises. by rewrite Hcell. }
    apply extract_counts_lookup; [done|].
    intros k. rewrite lookup_empty, Hcell. unfold extracted_field. simpl.
    by repeat case_decide.
Qed.

Lemma extract_year r user_id :
  extract_paper_info r user_id !! "year"
  = if detail_url_raises r then None else mjoin (year_cell r).
Proof. rewrite extract_paper_info_lookup. unfold extracted_field. by simpl. Qed.

(** The [except] branch: when [urljoin] raises on the reference of the
    title link, the record holds the title and nothing else. *)
Lemma extract_paper_info_raised r user_id link :
  title_cell r ≫= title_link = Some link →
  get_href link ≠ "" →
  urljoin base_url (get_href link) = None →
  extract_paper_info r user_id = {[ "title" := a_text link ]}.
Proof.
  intros Hlink Hhref Hjoin.
  assert (detail_url_raises r = true) as Hraises.
  { apply detail_url_raises_spec. by exists link. }
  apply map_eq. intros key. rewrite extract_paper_info_lookup. unfold extracted_field.
  rewrite Hraises, Hlink. simpl.
  destruct (decide (key = "title")) as [->|Hne].
  - by rewrite lookup_singleton_eq.
  - by rewrite lookup_singleton_ne.
Qed.

Lemma disqualifies_older user_id limit r :
  limit ≠ 0 →
  disqualifies user_id (Some limit) r = true ↔ older_than limit r.
Proof.
  intros Hlimit. unfold disqualifies, below_year_limit, older_than, truthy_int.
  rewrite extract_year. apply Z.eqb_neq in Hlimit. rewrite Hlimit. simpl.
  destruct (detail_url_raises r).
  { split; [done|]. by intros [? _]. }
  destruct (year_cell r) as [[year|]|]; simpl.
  - unfold truthy_str. destruct (decide (year = "")) as [->|Hne].
    + rewrite bool_decide_eq_true_2 by done. simpl. split; [done|].
      intros (_ & year & y & [= <-] & Hy & _). by rewrite py_int_empty in Hy.
    + rewrite bool_decide_eq_false_2 by done. simpl.
      destruct (py_int year) as [paper_year|] eqn:Hint.
      * rewrite Z.ltb_lt. split; [intros Hlt; split; [done|by eauto]|].
        intros (_ & year' & y & [= <-] & Hy & Hlt). congruence.
      * split; [done|]. intros (_ & year' & y & [= <-] & Hy & _). congruence.
  - split; [done|]. by intros (_ & ? & ? & ? & _).
  - split; [done|]. by intros (_ & ? & ? & ? & _).
Qed.

Lemma rows_before_stop_cut user_id year_limit rows :
  cut_at_first (λ r, disqualifies user_id year_limit r = true) rows
    (rows_before_stop user_id year_limit rows).
Proof.
  induction rows as [|r rest [IHall IHcut]]; simpl.
  - split; [constructor|by left].
  - destruct (disqualifies user_id year_limit r) eqn:Hr.
    + split; [constructor|]. right. by exists r, rest.
    + split; [constructor; [congruence|done]|].
      destruct IHcut as [->|(r' & rest' & Hsplit & Hr')]; [by left|].
      right. exists r', rest'. split; [|done]. simpl. by f_equal.
Qed.

Lemma summaries_elem user_id rows (paper : dict) :
  paper ∈ summaries user_id rows ↔
  ∃ r, r ∈ rows ∧ paper = extract_paper_info r user_id ∧ paper ≠ ∅.
Proof.
  induction rows as [|r rest IH]; simpl.
  - split; [by intros ?%elem_of_nil|]. by intros (? & ?%elem_of_nil & _).
  - destruct (truthy_dict (extract_paper_info r user_id)) eqn:Hd.
    + apply truthy_dict_true in Hd. rewrite elem_of_cons, IH. clear IH. split.
      * intros [->|(r' & ? & ? & ?)]; [exists r|exists r'];
          rewrite elem_of_cons; naive_solver.
      * intros (r' & [->|?]%elem_of_cons & ? & ?); naive_solver.
    + apply truthy_dict_false in Hd. rewrite IH. clear IH. split.
      * intros (r' & ? & ? & ?). exists r'. rewrite elem_of_cons. naive_solver.
      * intros (r' & [->|?]%elem_of_cons & ? & ?); naive_solver.
Qed.

Lemma take_room_elem {A} k (l : list A) x : x ∈ take_room k l → x ∈ l.
Proof. destruct k as [k|]; simpl; [|done]. apply subseteq_take. Qed.

End ExtractFacts.

Section MoreFacts.
Context `{PyLib}.

Lemma extract_paper_info_empty r user_id :
  extract_paper_info r user_id = ∅ ↔ no_field r.
Proof.
  unfold no_field. split.
  - intros Hempty.
    pose proof (extract_paper_info_lookup r user_id) as Hkey.
    rewrite Hempty in Hkey. setoid_rewrite lookup_empty in Hkey.
    pose proof (Hkey "title") as Htitle. pose proof (Hkey "authors") as Hauthors.
    pose proof (Hkey "citations") as Hcit. pose proof (Hkey "year") as Hyear.
    unfold extracted_field in *. simpl in *.
    destruct (title_cell r ≫= title_link) eqn:Hlink; [done|].
    assert (detail_url_raises r = false) as Hruns.
    { unfold detail_url_raises. by rewrite Hlink. }
    rewrite Hruns in *.
    destruct (citations_cell r); [done|]. done.
  - intros (Hlink & Hdivs & Hcit & Hyear). apply map_eq. intros key.
    assert (detail_url_raises r = false) as Hruns.
    { unfold detail_url_raises. by rewrite Hlink. }
    rewrite extract_paper_info_lookup, lookup_empty. unfold extracted_field.
    rewrite Hruns, Hlink, Hcit, Hyear. simpl.
    repeat case_decide; try done.
    destruct (title_cell r) as [c|]; [simpl in *|done].
    by destruct (gray_divs c).
Qed.

(** A row without fields is passed over. *)
Lemma summaries_skip user_id rows1 r rows2 :
  extract_paper_info r user_id = ∅ →
  summaries user_id (rows1 ++ r :: rows2) = summaries user_id (rows1 ++ rows2).
Proof.
  intros Hempty. induction rows1 as [|r1 rest IH]; simpl.
  - by rewrite (proj2 (truthy_dict_false _) Hempty).
  - by rewrite IH.
Qed.

Lemma rows_before_stop_skip user_id year_limit rows1 r rows2 :
  extract_paper_info r user_id = ∅ →
  summaries user_id (rows_before_stop user_id year_limit (rows1 ++ r :: rows2))
  = summaries user_id (rows_before_stop user_id year_limit (rows1 ++ rows2)).
Proof.
  intros Hempty. induction rows1 as [|r1 rest IH]; simpl.
  - unfold disqualifies at 1. rewrite Hempty, below_year_limit_empty. simpl.
    by rewrite (proj2 (truthy_dict_false _) Hempty).
  - destruct (disqualifies user_id year_limit r1); [done|]. simpl. by rewrite IH.
Qed.

Lemma for_rows_keep user_id max_papers year_limit r rest papers :
  cap_reached max_papers papers = false →
  extract_paper_info r user_id ≠ ∅ →
  below_year_limit year_limit (extract_paper_info r user_id) = false →
  for_rows user_id max_papers year_limit (r :: rest) papers
  = for_rows user_id max_papers year_limit rest (papers ++ [extract_paper_info r user_id]).
Proof.
  intros Hcap Hd Hy. cbn [for_rows].
  by rewrite Hcap, (proj2 (truthy_dict_true _) Hd), Hy.
Qed.

Lemma for_rows_skip user_id max_papers year_limit r rest papers :
  cap_reached max_papers papers = false →
  extract_paper_info r user_id = ∅ →
  for_rows user_id max_papers year_limit (r :: rest) papers
  = for_rows user_id max_papers year_limit rest papers.
Proof.
  intros Hcap Hd. cbn [for_rows].
  by rewrite Hcap, (proj2 (truthy_dict_false _) Hd).
Qed.

Lemma get_profile_papers_served fuel w profile_url max_papers year_limit res :
  get_profile_papers fuel w profile_url max_papers year_limit = Some res →
  Forall (λ paper : dict, paper ≠ ∅ ∧
            ∃ r, r ∈ rows_served w (query_user profile_url) (requests_of res)
                 ∧ paper = extract_paper_info r (query_user profile_url))
    (papers_of res).
Proof.
  intros (_ & _ & ->)%get_profile_papers_spec.
  apply Forall_forall. intros paper Hin.
  apply take_room_elem, summaries_elem in Hin as (r & Hr & -> & Hne).
  split; [done|]. exists r. split; [|done].
  destruct (rows_before_stop_cut (query_user profile_url) year_limit
              (rows_served w (query_user profile_url) (requests_of res)))
    as [_ [Heq|(r' & rest & Heq & _)]].
  - by rewrite <- Heq.
  - rewrite Heq. apply elem_of_app. by left.
Qed.


(** A page that the [for] loop leaves without a [return] has no
    disqualifying row. *)
Lemma for_rows_exhausted user_id max_papers year_limit rows papers papers' :
  for_rows user_id max_papers year_limit rows papers = Exhausted papers' →
  Forall (λ r, disqualifies user_id year_limit r = false) rows.
Proof.
  revert papers. induction rows as [|r rest IH]; intros papers; [by constructor|].
  cbn [for_rows]. destruct (cap_reached _ _); [done|].
  destruct (truthy_dict (extract_paper_info r user_id)) eqn:Hd.
  - destruct (below_year_limit _ _) eqn:Hy; [done|].
    intros Hrest. constructor; [done|by eapply IH].
  - apply truthy_dict_false in Hd.
    intros Hrest. constructor; [|by eapply IH].
    unfold disqualifies. rewrite Hd. apply below_year_limit_empty.
Qed.

(** Every page before the last one requested was left without a
    [return]. *)
Lemma while_pages_earlier fuel w user_id max_papers year_limit papers start requests res :
  while_pages fuel w user_id max_papers year_limit papers start requests = Some res →
  ∃ earlier last papers',
    requests_of res = requests ++ earlier ++ [last]
    ∧ for_rows user_id max_papers year_limit (rows_served w user_id earlier) papers
      = Exhausted papers'.
Proof.
  revert papers start requests.
  induction fuel as [|fuel IH]; intros papers start requests; cbn [while_pages]; [done|].
  assert (∀ ps, Some (ListerResult ps (requests ++ [start])) = Some res →
            ∃ earlier last papers',
              requests_of res = requests ++ earlier ++ [last]
              ∧ for_rows user_id max_papers year_limit
                  (rows_served w user_id earlier) papers = Exhausted papers') as Hlast.
  { intros ps [= <-]. by exists [], start, papers. }
  destruct (listing w user_id start) as [[|r rows]|] eqn:Hpage; [by apply Hlast| |by apply Hlast].
  destruct (for_rows user_id max_papers year_limit (r :: rows) papers)
    as [papers1|papers1] eqn:Hfor; [by apply Hlast|].
  destruct (_ <? _)%nat; [by apply Hlast|].
  intros (earlier & last & papers' & Hreq & Hearlier)%IH.
  exists (start :: earlier), last, papers'. split.
  - by rewrite Hreq, <- app_assoc.
  - rewrite rows_served_cons. unfold page_rows. rewrite Hpage. simpl default.
    by rewrite for_rows_app, Hfor.
Qed.

(** No row of a page before the last one requested disqualifies: the
    first such row, if any, is on the last page requested. *)
Lemma get_profile_papers_earlier fuel w profile_url max_papers year_limit res earlier last :
  get_profile_papers fuel w profile_url max_papers year_limit = Some res →
  requests_of res = earlier ++ [last] →
  Forall (λ r, disqualifies (query_user profile_url) year_limit r = false)
    (rows_served w (query_user profile_url) earlier).
Proof.
  unfold get_profile_papers. destruct (negb _).
  { intros [= <-]. simpl. by intros ?%app_cons_not_nil. }
  intros (earlier' & last' & papers' & Hreq & Hfor)%while_pages_earlier Hsplit.
  rewrite Hsplit in Hreq. simpl in Hreq. apply app_inj_tail in Hreq as [-> _].
  by eapply for_rows_exhausted.
Qed.

Lemma one_page_ends rows details user_id :
  (length rows < page_size)%nat →
  listing_ends (site (one_page rows) details) user_id 0.
Proof.
  intros Hshort offset _. unfold page_rows, site, one_page. simpl.
  destruct (decide (offset = 0%nat)); simpl; [done|unfold page_size; lia].
Qed.

End MoreFacts.

(** ** The year limit *)

Lemma years_at_least_kept `{PyLib} user_id limit max_papers rows :
  limit ≠ 0 →
  years_at_least limit
    (take_room (room max_papers 0)
       (summaries user_id (rows_before_stop user_id (Some limit) rows))).
Proof.
  intros Hlimit paper year y Hin Hyear Hint.
  apply take_room_elem, summaries_elem in Hin as (r & Hr & -> & _).
  destruct (rows_before_stop_cut user_id (Some limit) rows) as [Hall _].
  rewrite Forall_forall in Hall. specialize (Hall r Hr).
  rewrite disqualifies_older in Hall by done.
  rewrite extract_year in Hyear.
  destruct (decide (limit ≤ y)) as [|Hlt]; [done|].
  destruct (detail_url_raises r) eqn:Hruns; [done|].
  exfalso. apply Hall. split; [done|]. exists year, y. repeat split; [|done|lia].
  by destruct (year_cell r) as [[?|]|]; simplify_eq/=.
Qed.

(** C1, as amended: for every year_limit Y other than 0, what
    get_profile_papers returns is read off the rows served, in source order
    across pages, cut before the first row whose extracted year is present,
    parses as an integer and is below Y: that row and all rows after it are
    excluded, no page is requested after the page of that row, and every
    returned record whose year parses is at least Y. The method returns on
    every listing that ends. A row has an extracted year when it has a year
    span and the extraction reaches it; it does not when urljoin raises on
    the reference of the title link, and such a row, whatever its year
    cell, is kept with its title only and does not stop the method. With
    years 2021, 2020, 2019, 2022 and Y = 2020 the result is exactly the
    2021 and 2020 records. *)
Theorem year_limit_cuts_at_first_older_row :
  (∀ (lib : PyLib) fuel w profile_url max_papers Y res,
     Y ≠ 0 →
     get_profile_papers fuel w profile_url max_papers (Some Y) = Some res →
     (∃ kept,
        cut_at_first (older_than Y)
          (rows_served w (query_user profile_url) (requests_of res)) kept
        ∧ papers_of res
          = take_room (room max_papers 0) (summaries (query_user profile_url) kept))
     ∧ (∀ earlier last,
          requests_of res = earlier ++ [last] →
          Forall (λ r, ¬ older_than Y r) (rows_served w (query_user profile_url) earlier))
     ∧ years_at_least Y (papers_of res))
  ∧ (∀ (lib : PyLib) w profile_url max_papers Y bound,
       listing_ends w (query_user profile_url) bound →
       is_Some (get_profile_papers (S bound) w profile_url max_papers (Some Y)))
  ∧ (∀ (lib : PyLib) r user_id Y,
       older_than Y r ↔
       ∃ year y, extract_paper_info r user_id !! "year" = Some year
                 ∧ py_int year = Some y ∧ y < Y)
  ∧ get_profile_papers 1 (site (one_page year_limit_rows) no_details) sample_url
      None (Some 2020)
    = Some (ListerResult [full_record "A" "2021"; full_record "B" "2020"] [0%nat])
  ∧ get_profile_papers 1
      (site (one_page [full_row "A" "2021"; rejected_row "R" "2019"; full_row "B" "2020"])
         no_details)
      sample_url None (Some 2020)
    = Some (ListerResult [full_record "A" "2021"; {[ "title" := "R" ]};
                          full_record "B" "2020"] [0%nat]).
Proof.
  split; [|split; [|split; [|split]]].
  - intros lib fuel w profile_url max_papers Y res HY Hrun.
    pose proof (λ earlier last,
                  get_profile_papers_earlier _ _ _ _ _ _ earlier last Hrun) as Hearlier.
    apply get_profile_papers_spec in Hrun as (_ & _ & Hpapers).
    set (user_id := query_user profile_url) in *.
    split; [|split].
    + exists (rows_before_stop user_id (Some Y)
                (rows_served w user_id (requests_of res))).
      split; [|done].
      destruct (rows_before_stop_cut user_id (Some Y)
                  (rows_served w user_id (requests_of res))) as [Hall Hcut].
      split.
      * eapply Forall_impl; [exact Hall|]. intros r Hr Holder.
        apply Hr. by apply disqualifies_older.
      * destruct Hcut as [?|(r & rest & ? & Hr)]; [by left|].
        right. exists r, rest. split; [done|]. by apply (disqualifies_older user_id).
    + intros earlier last Hsplit.
      eapply Forall_impl; [exact (Hearlier earlier last Hsplit)|].
      intros r Hr Holder. apply (disqualifies_older user_id) in Holder; [|done].
      congruence.
    + rewrite Hpapers. by apply years_at_least_kept.
  - intros lib w profile_url max_papers Y bound. apply get_profile_papers_returns.
  - intros lib r user_id Y. unfold older_than. rewrite extract_year.
    destruct (detail_url_raises r).
    + split; [by intros [? _]|by intros (? & ? & ? & _)].
    + split.
      * intros (_ & year & y & Hcell & Hint & Hlt). exists year, y. by rewrite Hcell.
      * intros (year & y & Hcell & Hint & Hlt). split; [done|]. exists year, y.
        split; [|done]. by destruct (year_cell r) as [[?|]|]; simplify_eq/=.
  - vm_compute. reflexivity.
  - vm_compute. reflexivity.
Qed.

Lemma year_limit_cuts_at_first_older_row_witness :
  ((∃ kept,
      cut_at_first (older_than 2020)
        (rows_served (site (one_page year_limit_rows) no_details)
           (query_user sample_url) [0%nat]) kept
      ∧ [full_record "A" "2021"; full_record "B" "2020"]
        = take_room (room None 0) (summaries (query_user sample_url) kept))
   ∧ years_at_least 2020 [full_record "A" "2021"; full_record "B" "2020"])
  ∧ is_Some (get_profile_papers 1 (site (one_page year_limit_rows) no_details)
               sample_url None (Some 2020)).
Proof.
  split.
  - destruct (proj1 year_limit_cuts_at_first_older_row sample_lib 1%nat
                (site (one_page year_limit_rows) no_details) sample_url None 2020
                (ListerResult [full_record "A" "2021"; full_record "B" "2020"] [0%nat]))
      as (Hkept & _ & Hyears).
    + lia.
    + vm_compute. reflexivity.
    + split; [exact Hkept|exact Hyears].
  - apply (proj1 (proj2 year_limit_cuts_at_first_older_row) sample_lib
             (site (one_page year_limit_rows) no_details) sample_url None 2020 0%nat).
    apply one_page_ends. vm_compute. lia.
Defined.

(** With year_limit = 0 the check is off: a row whose year is -1 is kept. *)
Lemma year_limit_zero_keeps_older_row :
  get_profile_papers 1 (site (one_page [full_row "A" "-1"]) no_details) sample_url
    None (Some 0)
  = Some (ListerResult [full_record "A" "-1"] [0%nat])
  ∧ older_than 0 (full_row "A" "-1")
  ∧ ¬ years_at_least 0 [full_record "A" "-1"].
Proof.
  split; [by vm_compute|split].
  - split; [reflexivity|]. exists "-1", (-1). by vm_compute.
  - intros Hall.
    specialize (Hall (full_record "A" "-1") "-1" (-1)).
    assert (0 ≤ -1); [|lia].
    apply Hall; [by apply list_elem_of_here|by vm_compute|by vm_compute].
Qed.

(** ** The cap, and the records kept *)

(** C2, as amended: for every integer N >= 1 supplied as max_papers,
    get_profile_papers returns at most N records: the first N records of
    the rows served (whole records only), and the loop returns at the first
    row it meets once N records are collected. The method returns on every
    listing that ends. *)
Theorem max_papers_bounds_the_result :
  (∀ (lib : PyLib) fuel w profile_url N year_limit res,
     1 ≤ N →
     get_profile_papers fuel w profile_url (Some N) year_limit = Some res →
     Z.of_nat (length (papers_of res)) ≤ N
     ∧ papers_of res
       = take (Z.to_nat N)
           (summaries (query_user profile_url)
              (rows_before_stop (query_user profile_url) year_limit
                 (rows_served w (query_user profile_url) (requests_of res)))))
  ∧ (∀ (lib : PyLib) user_id N year_limit r rest papers,
       1 ≤ N → N ≤ Z.of_nat (length papers) →
       for_rows user_id (Some N) year_limit (r :: rest) papers = Returned papers)
  ∧ (∀ (lib : PyLib) w profile_url N year_limit bound,
       listing_ends w (query_user profile_url) bound →
       is_Some (get_profile_papers (S bound) w profile_url (Some N) year_limit)).
Proof.
  split; [|split].
  - intros lib fuel w profile_url N year_limit res HN Hrun.
    apply get_profile_papers_spec in Hrun as (_ & _ & Hpapers).
    assert (room (Some N) 0 = Some (Z.to_nat N)) as Hroom.
    { unfold room, truthy_int. destruct (N =? 0) eqn:HN0; [lia|].
      simpl. f_equal. lia. }
    rewrite Hroom in Hpapers. simpl in Hpapers. split; [|done].
    rewrite Hpapers, length_take. lia.
  - intros lib user_id N year_limit r rest papers HN Hfull. cbn [for_rows].
    unfold cap_reached, truthy_int. destruct (N =? 0) eqn:HN0; [lia|].
    simpl. by rewrite (proj2 (Z.leb_le _ _) Hfull).
  - intros lib w profile_url N year_limit bound. apply get_profile_papers_returns.
Qed.

Lemma max_papers_bounds_the_result_witness :
  (Z.of_nat (length [full_record "A" "2021"; full_record "B" "2020"]) ≤ 2
   ∧ [full_record "A" "2021"; full_record "B" "2020"]
     = take (Z.to_nat 2)
         (summaries (query_user sample_url)
            (rows_before_stop (query_user sample_url) None
               (rows_served (site (one_page year_limit_rows) no_details)
                  (query_user sample_url) [0%nat]))))
  ∧ for_rows "abc123" (Some 2) None [full_row "C" "2019"; full_row "D" "2022"]
      [full_record "A" "2021"; full_record "B" "2020"]
    = Returned [full_record "A" "2021"; full_record "B" "2020"]
  ∧ is_Some (get_profile_papers 1 (site (one_page year_limit_rows) no_details)
               sample_url (Some 2) None).
Proof.
  split; [|split].
  - apply (proj1 max_papers_bounds_the_result sample_lib 1%nat
             (site (one_page year_limit_rows) no_details) sample_url 2 None
             (ListerResult [full_record "A" "2021"; full_record "B" "2020"] [0%nat])).
    + lia.
    + vm_compute. reflexivity.
  - apply (proj1 (proj2 max_papers_bounds_the_result) sample_lib); simpl; lia.
  - apply (proj2 (proj2 max_papers_bounds_the_result) sample_lib
             (site (one_page year_limit_rows) no_details) sample_url 2 None 0%nat).
    apply one_page_ends. vm_compute. lia.
Defined.

(** With max_papers = 0 the cap is off: one record is returned, which is
    more than 0. *)
Lemma max_papers_zero_is_no_cap :
  get_profile_papers 1 (site (one_page [full_row "A" "2021"]) no_details) sample_url
    (Some 0) None
  = Some (ListerResult [full_record "A" "2021"] [0%nat])
  ∧ ¬ Z.of_nat (length [full_record "A" "2021"]) ≤ 0.
Proof. split; [by vm_compute|simpl; lia]. Qed.


(** C5, as amended: a listing row from which no field can be extracted
    contributes nothing to the returned sequence and does not end the page:
    the result is the one obtained without that row. A row with some field
    contributes one record holding exactly the fields that could be
    extracted, unless the cap or the year limit makes the method return at
    that row. The fields that could be extracted are those of the cells
    present when the extraction completes; when urljoin raises on the
    reference of the title link, they are the title alone, and the authors,
    venue, citations and year of the row are left out. *)
Theorem unparseable_row_contributes_nothing :
  (∀ (lib : PyLib) user_id max_papers year_limit rows1 r rows2 papers,
     no_field r →
     exit_papers (for_rows user_id max_papers year_limit (rows1 ++ r :: rows2) papers)
     = exit_papers (for_rows user_id max_papers year_limit (rows1 ++ rows2) papers))
  ∧ (∀ (lib : PyLib) r user_id key,
       extract_paper_info r user_id !! key = extracted_field r key)
  ∧ (∀ (lib : PyLib) user_id max_papers year_limit r rest papers,
       cap_reached max_papers papers = false →
       ¬ no_field r →
       below_year_limit year_limit (extract_paper_info r user_id) = false →
       for_rows user_id max_papers year_limit (r :: rest) papers
       = for_rows user_id max_papers year_limit rest
           (papers ++ [extract_paper_info r user_id]))
  ∧ (∀ (lib : PyLib) r user_id link,
       title_cell r ≫= title_link = Some link →
       get_href link ≠ "" →
       urljoin base_url (get_href link) = None →
       detail_url_raises r = true
       ∧ extract_paper_info r user_id = {[ "title" := a_text link ]}).
Proof.
  split; [|split; [|split]].
  - intros lib user_id max_papers year_limit rows1 r rows2 papers Hnone.
    apply (extract_paper_info_empty r user_id) in Hnone.
    by rewrite !for_rows_papers, rows_before_stop_skip.
  - intros lib r user_id key. apply extract_paper_info_lookup.
  - intros lib user_id max_papers year_limit r rest papers Hcap Hsome Hyear.
    apply for_rows_keep; [done| |done].
    intros Hempty. by apply Hsome, (extract_paper_info_empty r user_id).
  - intros lib r user_id link Hlink Hhref Hjoin. split.
    + apply detail_url_raises_spec. by exists link.
    + by apply extract_paper_info_raised.
Qed.

Lemma unparseable_row_contributes_nothing_witness :
  exit_papers (for_rows "abc123" None None
                 ([full_row "A" "2021"] ++ blank_row :: [full_row "B" "2020"]) [])
  = exit_papers (for_rows "abc123" None None
                   ([full_row "A" "2021"] ++ [full_row "B" "2020"]) [])
  ∧ for_rows "abc123" None None [year_only_row "2020"; full_row "B" "2020"] []
    = for_rows "abc123" None None [full_row "B" "2020"]
        ([] ++ [extract_paper_info (year_only_row "2020") "abc123"])
  ∧ detail_url_raises (rejected_row "R" "2019") = true
  ∧ extract_paper_info (rejected_row "R" "2019") "abc123" = {[ "title" := "R" ]}.
Proof.
  split; [|split].
  - apply (proj1 unparseable_row_contributes_nothing sample_lib "abc123" None None
             [full_row "A" "2021"] blank_row [full_row "B" "2020"] []).
    vm_compute. done.
  - apply (proj1 (proj2 (proj2 unparseable_row_contributes_nothing)) sample_lib).
    + reflexivity.
    + intros (_ & _ & _ & Hyear). vm_compute in Hyear. discriminate.
    + reflexivity.
  - apply (proj2 (proj2 (proj2 unparseable_row_contributes_nothing)) sample_lib
             (rejected_row "R" "2019") "abc123" (Anchor "R" (Some "//["))).
    + reflexivity.
    + discriminate.
    + reflexivity.
Defined.

(** A blank row between two rows leaves no record, empty or not. *)
Lemma blank_row_leaves_no_record :
  no_field blank_row
  ∧ get_profile_papers 1
      (site (one_page [full_row "A" "2021"; blank_row; full_row "B" "2020"]) no_details)
      sample_url None None
    = Some (ListerResult [full_record "A" "2021"; full_record "B" "2020"] [0%nat])
  ∧ (∅ : dict) ∉ [full_record "A" "2021"; full_record "B" "2020"].
Proof.
  split; [by vm_compute|split; [by vm_compute|]].
  intros Hin. apply list_elem_of_In in Hin.
  destruct Hin as [Heq|[Heq|[]]];
    apply (f_equal (.!! "title")) in Heq; vm_compute in Heq; discriminate Heq.
Qed.

(** C8, as amended: the record of a listing row has a citations field
    exactly when the row has a citations cell and the extraction reaches
    it; its value is "0" when the cell holds no link and the text of the
    link otherwise, which need not be numeric (it can be the empty string).
    A row without a citations cell yields a record without the field, and
    so does a row on whose title link reference urljoin raises: the
    extraction ends there and the record holds the title only. *)
Theorem citations_field_follows_the_cell :
  (∀ (lib : PyLib) r user_id,
     extract_paper_info r user_id !! "citations"
     = if detail_url_raises r then None
       else match citations_cell r with
            | Some (Some text) => Some text
            | Some None => Some "0"
            | None => None
            end)
  ∧ (∀ (lib : PyLib) r,
       detail_url_raises r = true ↔
       ∃ link, title_cell r ≫= title_link = Some link
               ∧ get_href link ≠ ""
               ∧ urljoin base_url (get_href link) = None)
  ∧ (∀ (lib : PyLib) user_id,
       extract_paper_info (Row None (Some (Some "")) None) user_id !! "citations" = Some ""
       ∧ py_int "" = None)
  ∧ citations_cell (rejected_row "R" "2019") = Some (Some "12")
  ∧ extract_paper_info (rejected_row "R" "2019") "abc123" = {[ "title" := "R" ]}.
Proof.
  split; [|split; [|split; [|split]]].
  - intros lib r user_id. rewrite extract_paper_info_lookup.
    unfold extracted_field. simpl.
    destruct (detail_url_raises r); [done|]. by destruct (citations_cell r) as [[text|]|].
  - intros lib r. apply detail_url_raises_spec.
  - intros lib user_id. split; [done|apply py_int_empty].
  - reflexivity.
  - reflexivity.
Qed.

Lemma citations_field_follows_the_cell_witness :
  detail_url_raises (rejected_row "R" "2019") = true
  ∧ extract_paper_info (rejected_row "R" "2019") "abc123" !! "citations" = None
  ∧ extract_paper_info (full_row "A" "2021") "abc123" !! "citations" = Some "12".
Proof.
  split; [|split].
  - apply (proj2 (proj1 (proj2 citations_field_follows_the_cell) sample_lib
                    (rejected_row "R" "2019"))).
    exists (Anchor "R" (Some "//[")). split; [reflexivity|split; [discriminate|reflexivity]].
  - exact (proj1 citations_field_follows_the_cell sample_lib (rejected_row "R" "2019")
             "abc123").
  - exact (proj1 citations_field_follows_the_cell sample_lib (full_row "A" "2021")
             "abc123").
Defined.

(** A row without a citations cell is returned without the field. *)
Lemma record_without_citations_is_returned :
  get_profile_papers 1 (site (one_page [title_only_row "T"]) no_details) sample_url
    None None
  = Some (ListerResult [{[ "title" := "T" ]}] [0%nat])
  ∧ ({[ "title" := "T" ]} : dict) !! "citations" = None.
Proof. split; by vm_compute. Qed.

(** ** Pagination *)




(** ** The enrichment stage *)

Section EnrichFacts.
Context `{PyLib}.

Lemma enumerate_papers_seq (papers : list dict) :
  enumerate_papers papers = (λ k, (k, k)) <$> seq 0 (length papers).
Proof. unfold enumerate_papers. apply imap_seq_0. Qed.

Lemma pool_results_id w store l : pool_results w store l = l.
Proof.
  unfold pool_results. induction l as [|[paper index] l IH]; [done|].
  rewrite fmap_cons, IH. done.
Qed.

(** A work list that is a permutation of the submitted one names every
    position once, with itself as index. *)
Lemma work_items_diag (papers : list dict) (l : list (nat * nat)) :
  l ≡ₚ enumerate_papers papers →
  l = (λ k, (k, k)) <$> l.*1 ∧ l.*1 ≡ₚ seq 0 (length papers).
Proof.
  rewrite enumerate_papers_seq. intros Hperm. split.
  - assert (Forall (λ p : nat * nat, p = (p.1, p.1)) l) as Hdiag.
    { rewrite Hperm. apply Forall_fmap, Forall_true. done. }
    clear Hperm. induction Hdiag as [|p l Hp _ IH]; [done|].
    rewrite !fmap_cons. by f_equal.
  - rewrite Hperm, <- list_fmap_compose. simpl. by rewrite list_fmap_id.
Qed.

Lemma run_pool_lookup w completion (store : list dict) i :
  NoDup completion.*1 →
  run_pool w completion store !! i
  = if decide (i ∈ completion.*1) then enriched w <$> store !! i else store !! i.
Proof.
  unfold run_pool. revert store.
  induction completion as [|[paper index] rest IH]; intros store Hnodup; [done|].
  rewrite fmap_cons in *. cbn [foldl process_paper fst] in *.
  - apply NoDup_cons in Hnodup as [Hfresh Hnodup]. rewrite IH by done.
    destruct (decide (i = paper)) as [->|Hne].
    + rewrite decide_False by done. rewrite decide_True by apply list_elem_of_here.
      apply list_lookup_alter_eq.
    + rewrite list_lookup_alter_ne by done.
      destruct (decide (i ∈ rest.*1)) as [Hin|Hout].
      * rewrite decide_True; [done|]. by apply list_elem_of_further.
      * rewrite decide_False; [done|]. by intros [?|?]%elem_of_cons.
Qed.

(** Each object ends with the contents that [process_paper] gives it,
    whatever the order of completion. *)
Lemma run_pool_enriched w completion (papers : list dict) :
  completion ≡ₚ enumerate_papers papers →
  run_pool w completion papers = enriched w <$> papers.
Proof.
  intros [_ Hperm]%work_items_diag. apply list_eq. intros i.
  rewrite run_pool_lookup by (rewrite Hperm; apply NoDup_seq).
  rewrite list_lookup_fmap.
  destruct (decide (i ∈ completion.*1)) as [Hin|Hout]; [done|].
  rewrite Hperm, elem_of_seq in Hout.
  rewrite lookup_ge_None_2 by lia. done.
Qed.

Lemma assemble_diag ks (detailed_papers : list (option nat)) :
  Forall (λ k, (k < length detailed_papers)%nat) ks →
  ∃ filled,
    assemble ((λ k, (k, k)) <$> ks) detailed_papers = inr filled
    ∧ length filled = length detailed_papers
    ∧ ∀ i, filled !! i
           = if decide (i ∈ ks) then Some (Some i) else detailed_papers !! i.
Proof.
  revert detailed_papers.
  induction ks as [|k rest IH]; intros detailed_papers Hin.
  - by exists detailed_papers.
  - apply Forall_cons in Hin as [Hk Hrest].
    rewrite fmap_cons. cbn [assemble]. rewrite decide_True by done.
    destruct (IH (<[k:=Some k]> detailed_papers)) as (filled & Hrun & Hlen & Hlookup).
    { by rewrite length_insert. }
    exists filled. split; [done|split; [by rewrite Hlen, length_insert|]].
    intros i. rewrite Hlookup.
    destruct (decide (i ∈ rest)) as [Hi|Hi].
    + rewrite decide_True; [done|]. by apply list_elem_of_further.
    + destruct (decide (i = k)) as [->|Hne].
      * rewrite decide_True by apply list_elem_of_here.
        by apply list_lookup_insert_eq.
      * rewrite list_lookup_insert_ne by done.
        rewrite decide_False; [done|]. by intros [?|?]%elem_of_cons.
Qed.

(** Slot [i] receives object [i], whatever the order of arrival. *)
Lemma assemble_in_order (papers : list dict) arrival :
  arrival ≡ₚ enumerate_papers papers →
  assemble arrival (replicate (length papers) None)
  = inr (Some <$> seq 0 (length papers)).
Proof.
  intros [Hdiag Hperm]%work_items_diag. rewrite Hdiag.
  destruct (assemble_diag arrival.*1 (replicate (length papers) None))
    as (filled & -> & Hlen & Hlookup).
  { rewrite length_replicate, Hperm. apply Forall_forall.
    intros k Hk%elem_of_seq. lia. }
  f_equal. apply list_eq. intros i. rewrite Hlookup, list_lookup_fmap.
  destruct (decide (i ∈ arrival.*1)) as [Hin|Hout].
  - rewrite Hperm, elem_of_seq in Hin. by rewrite lookup_seq_lt by lia.
  - rewrite Hperm, elem_of_seq in Hout.
    rewrite lookup_seq_ge by lia. apply lookup_replicate_None. lia.
Qed.

Lemma contents_in_order (store : list dict) :
  contents store (Some <$> seq 0 (length store)) = Some <$> store.
Proof.
  unfold contents. apply list_eq. intros i. rewrite !list_lookup_fmap.
  destruct (decide (i < length store)%nat) as [Hlt|Hge].
  - rewrite lookup_seq_lt by done. simpl.
    destruct (lookup_lt_is_Some_2 store i Hlt) as [d Hd]. by rewrite Hd.
  - rewrite lookup_seq_ge by lia. by rewrite lookup_ge_None_2 by lia.
Qed.

Lemma enrich_in_order w completion arrival (papers : list dict) :
  completion ≡ₚ enumerate_papers papers →
  arrival ≡ₚ enumerate_papers papers →
  enrich w completion arrival papers = inr (Some <$> (enriched w <$> papers)).
Proof.
  intros Hcompletion Harrival. unfold enrich.
  rewrite pool_results_id, assemble_in_order by done.
  rewrite run_pool_enriched by done.
  rewrite <- (length_fmap (enriched w) papers). by rewrite contents_in_order.
Qed.

Lemma get_paper_details_title_kept w (paper : dict) :
  (∀ detail_url, paper !! "detail_url" = Some detail_url →
                 get_paper_details w detail_url !! "title" = None) →
  enriched w paper !! "title" = paper !! "title".
Proof.
  intros Hdetails. unfold enriched, dict_update.
  destruct (paper !! "detail_url") as [detail_url|] eqn:Hurl; [|done].
  rewrite lookup_union_r; [done|]. by apply Hdetails.
Qed.

End EnrichFacts.

(** C3: for every input sequence of papers, and for every order in which
    the workers complete and every order in which their results are
    handled, the enrichment stage returns a sequence of the same length
    whose item at index i is the enrichment of the input item at index i:
    slot i holds the very object that the input holds at i, so the title
    read through the output is the title read through the input, and it
    is the title the item had before the stage unless its detail page has
    a field of that name. *)
Theorem enrichment_keeps_input_order :
  ∀ (lib : PyLib) w completion arrival (papers : list dict),
    completion ≡ₚ enumerate_papers papers →
    arrival ≡ₚ enumerate_papers papers →
    let store := run_pool w completion papers in
    assemble (pool_results w store arrival) (replicate (length papers) None)
    = inr (Some <$> seq 0 (length papers))
    ∧ store = enriched w <$> papers
    ∧ ∃ detailed_papers,
        enrich w completion arrival papers = inr detailed_papers
        ∧ detailed_papers = Some <$> (enriched w <$> papers)
        ∧ length detailed_papers = length papers
        ∧ (∀ i paper, papers !! i = Some paper →
             detailed_papers !! i = Some (Some (enriched w paper)))
        ∧ (∀ i, (i < length papers)%nat →
             mjoin (detailed_papers !! i) ≫= (.!! "title")
             = store !! i ≫= (.!! "title"))
        ∧ (∀ i paper, papers !! i = Some paper →
             (∀ detail_url, paper !! "detail_url" = Some detail_url →
                            get_paper_details w detail_url !! "title" = None) →
             mjoin (detailed_papers !! i) ≫= (.!! "title") = paper !! "title").
Proof.
  intros lib w completion arrival papers Hcompletion Harrival store.
  assert (store = enriched w <$> papers) as Hstore by by apply run_pool_enriched.
  split; [|split; [done|]].
  { rewrite pool_results_id. by apply assemble_in_order. }
  exists (Some <$> (enriched w <$> papers)).
  split; [by apply enrich_in_order|split; [done|split; [by rewrite !length_fmap|]]].
  split; [|split].
  - intros i paper Hi. by rewrite !list_lookup_fmap, Hi.
  - intros i Hi. rewrite Hstore, !list_lookup_fmap.
    by destruct (papers !! i).
  - intros i paper Hi Hdetails. rewrite !list_lookup_fmap, Hi. simpl.
    by apply get_paper_details_title_kept.
Qed.

Lemma enrichment_keeps_input_order_witness :
  enrich (site (one_page []) sample_details)
    [(2, 2); (0, 0); (1, 1)]%nat [(1, 1); (2, 2); (0, 0)]%nat sample_papers
  = inr (Some <$> (enriched (site (one_page []) sample_details) <$> sample_papers)).
Proof.
  destruct (enrichment_keeps_input_order sample_lib (site (one_page []) sample_details)
              [(2, 2); (0, 0); (1, 1)]%nat [(1, 1); (2, 2); (0, 0)]%nat sample_papers)
    as (_ & _ & detailed_papers & Hrun & -> & _).
  - change (enumerate_papers sample_papers) with [(0, 0); (1, 1); (2, 2)]%nat.
    apply (Permutation_cons_app [(0, 0); (1, 1)]%nat [] (2, 2)%nat). reflexivity.
  - change (enumerate_papers sample_papers) with [(0, 0); (1, 1); (2, 2)]%nat.
    apply (Permutation_cons_app [(0, 0)]%nat [(2, 2)]%nat (1, 1)%nat). apply perm_swap.
  - exact Hrun.
Defined.

(** The stage on the sample papers: the first gets the fields of its
    detail page, the other two are unchanged. *)
Example enrich_sample_papers :
  match enrich (site (one_page []) sample_details)
          [(2, 2); (0, 0); (1, 1)]%nat [(0, 0); (1, 1); (2, 2)]%nat sample_papers with
  | inr detailed_papers =>
      Some ((λ slot : option dict,
               (slot ≫= (.!! "title"), slot ≫= (.!! "Journal"),
                slot ≫= (.!! "Pages"), slot ≫= (.!! "abstract")))
              <$> detailed_papers)
  | inl _ => None
  end
  = Some [(Some "A", Some "Scientific Memoirs", Some "666-731",
           Some "Notes by the translator");
          (Some "T", None, None, None);
          (Some "B", None, None, None)].
Proof. vm_compute. reflexivity. Qed.

(** ** The run as a whole *)

Section RunFacts.
Context `{PyLib}.

(** [max_papers = 0] is no cap. *)
Lemma for_rows_cap_zero user_id year_limit rows papers :
  for_rows user_id (Some 0) year_limit rows papers
  = for_rows user_id None year_limit rows papers.
Proof.
  revert papers. induction rows as [|r rest IH]; intros papers; [done|].
  cbn [for_rows]. change (cap_reached (Some 0) papers) with false.
  change (cap_reached None papers) with false. cbv iota.
  destruct (truthy_dict _); [|apply IH].
  destruct (below_year_limit _ _); [done|apply IH].
Qed.

Lemma while_pages_cap_zero fuel w user_id year_limit papers start requests :
  while_pages fuel w user_id (Some 0) year_limit papers start requests
  = while_pages fuel w user_id None year_limit papers start requests.
Proof.
  revert papers start requests.
  induction fuel as [|fuel IH]; intros papers start requests; [done|].
  cbn [while_pages]. destruct (listing w user_id start) as [[|r rows]|]; try done.
  rewrite for_rows_cap_zero. destruct (for_rows _ _ _ _ _); [done|].
  destruct (_ <? _)%nat; [done|apply IH].
Qed.

Lemma get_profile_papers_cap_zero fuel w profile_url year_limit :
  get_profile_papers fuel w profile_url (Some 0) year_limit
  = get_profile_papers fuel w profile_url None year_limit.
Proof.
  unfold get_profile_papers. destruct (negb _); [done|apply while_pages_cap_zero].
Qed.

(** With nothing to process the stage returns the empty list, whatever the
    pool does. *)
Lemma enrich_nothing w completion : enrich w completion [] [] = inr [].
Proof. done. Qed.

End RunFacts.

(** C10: with max_papers = 0, get_profile_papers behaves as without a cap
    and collects rows without limit, the truncation papers[:0] leaves
    nothing to process, and a run of analyze_author_research that returns
    returns the empty sequence; it does return when the selection of the
    profile succeeds, the lister returns and the pool can be created. *)
Theorem max_papers_zero_returns_nothing :
  (∀ (lib : PyLib) fuel w profile_url year_limit,
     get_profile_papers fuel w profile_url (Some 0) year_limit
     = get_profile_papers fuel w profile_url None year_limit)
  ∧ (∀ papers : list dict,
       py_slice_to papers (Some 0) = [] ∧ enumerate_papers (py_slice_to papers (Some 0)) = [])
  ∧ (∀ (lib : PyLib) fuel w schedule author_name profile_index num_workers year_limit r
       detailed_papers,
       analyze_author_research fuel w schedule author_name (Some 0) profile_index
         num_workers year_limit = Some r →
       outcome r = inr detailed_papers →
       detailed_papers = [])
  ∧ (∀ (lib : PyLib) fuel w schedule author_name profile_index num_workers year_limit
       chosen_profile listed,
       py_index (search_author_profiles w author_name)
         (if Z.of_nat (length (search_author_profiles w author_name)) <=? profile_index
          then 0 else profile_index) = Some chosen_profile →
       get_profile_papers fuel w (url chosen_profile) (Some 0) year_limit = Some listed →
       0 < num_workers →
       ∃ out,
         analyze_author_research fuel w schedule author_name (Some 0) profile_index
           num_workers year_limit = Some (Run out (inr []))).
Proof.
  split; [|split; [|split]].
  - intros lib. apply get_profile_papers_cap_zero.
  - intros papers. by rewrite (take_0 papers : py_slice_to papers (Some 0) = []).
  - intros lib fuel w schedule author_name profile_index num_workers year_limit r
      detailed_papers.
    unfold analyze_author_research.
    destruct (search_author_profiles w author_name) as [|p profiles].
    { intros [= <-]. simpl. by intros [= <-]. }
    destruct (Z.of_nat (length (p :: profiles)) <=? profile_index);
      (destruct (py_index (p :: profiles) _) as [chosen_profile|];
       [|intros [= <-]; simpl; congruence]);
      (destruct (get_profile_papers fuel w (url chosen_profile) (Some 0) year_limit)
         as [listed|]; [|done]);
      (destruct (num_workers <=? 0); [intros [= <-]; simpl; congruence|]);
      rewrite (take_0 (papers_of listed) : py_slice_to (papers_of listed) (Some 0) = []);
      change (enumerate_papers []) with (@nil (nat * nat));
      rewrite enrich_nothing; cbn [print_summary];
      intros [= <-]; simpl; by intros [= <-].
  - intros lib fuel w schedule author_name profile_index num_workers year_limit
      chosen_profile listed Hchosen Hlisted Hworkers.
    unfold analyze_author_research.
    destruct (search_author_profiles w author_name) as [|p profiles] eqn:Hprofiles.
    { by destruct (_ <=? _) in Hchosen; destruct profile_index. }
    apply Z.leb_gt in Hworkers.
    destruct (Z.of_nat (length (p :: profiles)) <=? profile_index);
      rewrite Hchosen, Hlisted, Hworkers;
      rewrite (take_0 (papers_of listed) : py_slice_to (papers_of listed) (Some 0) = []);
      change (enumerate_papers []) with (@nil (nat * nat));
      rewrite enrich_nothing; cbn [print_summary]; by eexists.
Qed.

Lemma max_papers_zero_returns_nothing_witness :
  get_profile_papers 1 (site (one_page year_limit_rows) sample_details) sample_url
    (Some 0) None
  = Some (ListerResult [full_record "A" "2021"; full_record "B" "2020";
                        full_record "C" "2019"; full_record "D" "2022"] [0%nat])
  ∧ ∃ out,
      analyze_author_research 1 (site (one_page year_limit_rows) sample_details) id
        "Ada Lovelace" (Some 0) 0 4 None
      = Some (Run out (inr []))
      ∧ ([] : list (option dict)) = [].
Proof.
  split; [vm_compute; reflexivity|].
  destruct (proj2 (proj2 (proj2 max_papers_zero_returns_nothing)) sample_lib 1%nat
              (site (one_page year_limit_rows) sample_details) id "Ada Lovelace" 0 4 None
              (Profile "Ada Lovelace" sample_url "Ada LovelaceAnalytical Engine")
              (ListerResult [full_record "A" "2021"; full_record "B" "2020";
                             full_record "C" "2019"; full_record "D" "2022"] [0%nat]))
    as [out Hrun].
  - vm_compute. reflexivity.
  - vm_compute. reflexivity.
  - lia.
  - exists out. split; [exact Hrun|].
    apply (proj1 (proj2 (proj2 max_papers_zero_returns_nothing)) sample_lib 1%nat
             (site (one_page year_limit_rows) sample_details) id "Ada Lovelace" 0 4 None
             (Run out (inr [])) [] Hrun).
    reflexivity.
Defined.

Section SummaryFacts.
Context `{PyLib}.

(** Every field but the title has a placeholder. *)
Lemma summary_lines_titled i (paper : dict) title :
  paper !! "title" = Some title →
  ∃ lines, summary_lines i (Some paper) = inr lines
           ∧ ("Year: " +:+ default "Unknown" (paper !! "year")) ∈ lines
           ∧ ("Citations: " +:+ default "0" (paper !! "citations")) ∈ lines
           ∧ ("Authors: " +:+ default "Unknown" (paper !! "authors")) ∈ lines
           ∧ ("Venue: " +:+ default "Unknown" (paper !! "venue")) ∈ lines.
Proof.
  intros Htitle. unfold summary_lines. rewrite Htitle. eexists. split; [done|].
  repeat split; rewrite elem_of_app; left; set_solver.
Qed.

Lemma summary_lines_untitled i (paper : dict) :
  paper !! "title" = None → summary_lines i (Some paper) = inl (KeyError "title").
Proof. intros Htitle. unfold summary_lines. by rewrite Htitle. Qed.

End SummaryFacts.

(** C6, on the code: a listing row with an empty citations cell and nothing
    else gives a record without a title; the summary loop then raises
    KeyError on paper['title'] instead of printing a placeholder. *)
Theorem summary_raises_without_title :
  get_profile_papers 1 (site (one_page [citations_only_row]) no_details) sample_url
    (Some 20) None
  = Some (ListerResult [{[ "citations" := "0" ]}] [0%nat])
  ∧ summary_lines 1 (Some {[ "citations" := "0" ]}) = inl (KeyError "title")
  ∧ outcome <$> analyze_author_research 1 (site (one_page [citations_only_row]) no_details)
                  id "Ada Lovelace" (Some 20) 0 4 None
    = Some (inl (KeyError "title")).
Proof. repeat split; by vm_compute. Qed.

(** C7, on the code: with two candidate profiles and profile_index = -3 the
    index is left as it is, no warning is printed, and profiles[-3] raises
    IndexError. *)
Theorem negative_profile_index_raises :
  length (search_author_profiles (site (one_page []) no_details) "Ada Lovelace") = 2%nat
  ∧ analyze_author_research 1 (site (one_page []) no_details) id "Ada Lovelace"
      (Some 20) (-3) 4 None
    = Some (Run ["=== Analyzing research for: Ada Lovelace ===";
                 "Using 4 workers for parallel processing";
                 "";
                 "Found 2 profile(s):";
                 "1. Ada Lovelace";
                 "   Info: Ada LovelaceAnalytical Engine";
                 "   URL: https://scholar.google.com/citations?user=abc123&hl=en";
                 "2. A. A. Lovelace";
                 "   Info: A. A. Lovelace";
                 "   URL: https://scholar.google.com/citations?user=xyz789&hl=en";
                 ""]
              (inl IndexError)).
Proof. split; by vm_compute. Qed.

Section IndexFacts.
Context `{PyLib}.

(** The results handled in the order of submission fill every slot. *)
Lemma enrich_submitted w completion (papers : list dict) :
  ∃ detailed_papers,
    enrich w completion (enumerate_papers papers) papers = inr detailed_papers.
Proof.
  unfold enrich. rewrite pool_results_id, assemble_in_order by done. by eexists.
Qed.

(** An index at or above the number of profiles is reset to 0 with a
    warning, and the selection does not raise. *)
Lemma profile_index_too_large_is_reset fuel w schedule author_name max_papers
    profile_index num_workers year_limit r :
  search_author_profiles w author_name ≠ [] →
  Z.of_nat (length (search_author_profiles w author_name)) ≤ profile_index →
  analyze_author_research fuel w schedule author_name max_papers profile_index
    num_workers year_limit = Some r →
  ("Profile index " +:+ pretty profile_index +:+ " out of range, using profile 0")
    ∈ stdout r
  ∧ outcome r ≠ inl IndexError.
Proof.
  intros Hsome Hlarge. unfold analyze_author_research.
  destruct (search_author_profiles w author_name) as [|p profiles]; [done|].
  apply Z.leb_le in Hlarge. rewrite Hlarge. lazy beta iota zeta.
  change (py_index (p :: profiles) 0) with (Some p).
  destruct (get_profile_papers fuel w (url p) max_papers year_limit) as [listed|] eqn:Hl.
  all: rewrite Hl. 2: done.
  destruct (num_workers <=? 0).
  { intros [= <-]. split; [|done]. cbn [stdout]. set_solver. }
  destruct (enrich_submitted w
              (schedule (enumerate_papers (py_slice_to (papers_of listed) max_papers)))
              (py_slice_to (papers_of listed) max_papers)) as [detailed_papers ->].
  destruct (print_summary 1 detailed_papers) as [lines [e|]] eqn:Hsummary;
    intros [= <-]; (split; [cbn [stdout]; set_solver|]).
  - cbn [outcome]. intros [= ?]. subst e.
    clear -Hsummary. revert lines Hsummary. generalize 1%nat.
    induction detailed_papers as [|slot rest IH]; intros i lines; [done|].
    cbn [print_summary].
    destruct (summary_lines i slot) as [e|ls] eqn:Hlines.
    + intros [= _ ->]. unfold summary_lines in Hlines.
      destruct slot as [paper|]; [|done]. by destruct (paper !! "title").
    + destruct (print_summary (S i) rest) as [more e] eqn:Hrest.
      intros [= _ ->]. by eapply IH.
  - done.
Qed.

End IndexFacts.

Section RunInversion.
Context `{PyLib}.

(** What a run that returns a list went through. *)
Lemma analyze_returns_inv fuel w schedule author_name max_papers profile_index
    num_workers year_limit r detailed_papers :
  analyze_author_research fuel w schedule author_name max_papers profile_index
    num_workers year_limit = Some r →
  outcome r = inr detailed_papers →
  (search_author_profiles w author_name = [] ∧ detailed_papers = [])
  ∨ ∃ chosen_profile listed,
      py_index (search_author_profiles w author_name)
        (if Z.of_nat (length (search_author_profiles w author_name)) <=? profile_index
         then 0 else profile_index) = Some chosen_profile
      ∧ get_profile_papers fuel w (url chosen_profile) max_papers year_limit = Some listed
      ∧ 0 < num_workers
      ∧ enrich w
          (schedule (enumerate_papers (py_slice_to (papers_of listed) max_papers)))
          (enumerate_papers (py_slice_to (papers_of listed) max_papers))
          (py_slice_to (papers_of listed) max_papers) = inr detailed_papers
      ∧ (print_summary 1 detailed_papers).2 = None.
Proof.
  unfold analyze_author_research.
  destruct (search_author_profiles w author_name) as [|p profiles].
  { intros [= <-] [= <-]. by left. }
  intros Hrun Hout. right. revert Hrun.
  destruct (Z.of_nat (length (p :: profiles)) <=? profile_index); lazy beta iota zeta.
  all: destruct (py_index (p :: profiles) _) as [chosen_profile|] eqn:Hchosen;
    rewrite ?Hchosen; [|intros [= <-]; by simpl in Hout].
  all: destruct (get_profile_papers fuel w (url chosen_profile) max_papers year_limit)
    as [listed|] eqn:Hlisted; rewrite ?Hlisted; [|done].
  all: destruct (num_workers <=? 0) eqn:Hworkers; [intros [= <-]; by simpl in Hout|].
  all: apply Z.leb_gt in Hworkers.
  all: destruct (enrich w _ _ _) as [e|detailed] eqn:Henrich;
    [intros [= <-]; by simpl in Hout|].
  all: destruct (print_summary 1 detailed) as [lines [e|]] eqn:Hsummary;
    intros [= <-]; simpl in Hout; [done|].
  all: injection Hout as <-.
  all: exists chosen_profile, listed; by rewrite Hsummary.
Qed.

Lemma run_pool_length w completion (store : list dict) :
  length (run_pool w completion store) = length store.
Proof.
  unfold run_pool. revert store.
  induction completion as [|[paper index] rest IH]; intros store; [done|].
  cbn [foldl process_paper fst]. by rewrite IH, length_alter.
Qed.

(** The stage as [analyze_author_research] runs it: every slot is filled,
    whatever the pool does. *)
Lemma enrich_submitted_contents w completion (papers : list dict) :
  enrich w completion (enumerate_papers papers) papers
  = inr (Some <$> run_pool w completion papers).
Proof.
  unfold enrich. rewrite pool_results_id, assemble_in_order by done.
  rewrite <- (run_pool_length w completion papers). by rewrite contents_in_order.
Qed.

Lemma py_slice_to_length {A} (l : list A) N :
  0 ≤ N → Z.of_nat (length (py_slice_to l (Some N))) ≤ N.
Proof.
  intros HN. unfold py_slice_to. rewrite (proj2 (Z.leb_le 0 N) HN), length_take. lia.
Qed.

(** The summary loop ends without an exception exactly on filled slots
    that all have a title. *)
Lemma print_summary_ok i (slots : list (option dict)) :
  (print_summary i slots).2 = None ↔
  Forall (λ slot, ∃ paper : dict, slot = Some paper ∧ is_Some (paper !! "title")) slots.
Proof.
  revert i. induction slots as [|slot rest IH]; intros i; simpl.
  - split; [by constructor|done].
  - unfold summary_lines at 1. destruct slot as [paper|].
    + destruct (paper !! "title") as [title|] eqn:Htitle.
      * destruct (print_summary (S i) rest) as [more e] eqn:Hrest. simpl.
        specialize (IH (S i)). rewrite Hrest in IH. simpl in IH. rewrite IH.
        split.
        -- intros Hall. constructor; [|done]. exists paper. by rewrite Htitle.
        -- by intros [_ Hall]%Forall_cons.
      * simpl. split; [done|].
        intros [(paper' & [= <-] & Hsome) _]%Forall_cons.
        rewrite Htitle in Hsome. by destruct Hsome.
    + simpl. split; [done|]. by intros [(paper' & ? & _) _]%Forall_cons.
Qed.

(** On filled slots the only exception of the summary loop is the missing
    title. *)
Lemma print_summary_error i (papers : list dict) e :
  (print_summary i (Some <$> papers)).2 = Some e → e = KeyError "title".
Proof.
  revert i. induction papers as [|paper rest IH]; intros i; [done|].
  rewrite fmap_cons. cbn [print_summary]. unfold summary_lines at 1.
  destruct (paper !! "title") as [title|]; [|by intros [= <-]].
  destruct (print_summary (S i) (Some <$> rest)) as [more e'] eqn:Hrest. simpl.
  intros ->. apply (IH (S i)). by rewrite Hrest.
Qed.

Lemma py_index_elem {A} (l : list A) i x : py_index l i = Some x → x ∈ l.
Proof.
  unfold py_index. destruct (0 <=? i); [by apply list_elem_of_lookup_2|].
  destruct (_ <=? _); [by apply list_elem_of_lookup_2|done].
Qed.

Lemma py_slice_to_elem {A} (l : list A) stop x : x ∈ py_slice_to l stop → x ∈ l.
Proof.
  unfold py_slice_to. destruct stop as [n|]; [|done].
  destruct (0 <=? n); apply subseteq_take.
Qed.

(** A list that a run returns holds the enriched records of served rows,
    each with a title. *)
Lemma analyze_returns_final_records fuel w schedule author_name max_papers profile_index
    num_workers year_limit detailed_papers :
  (∀ l, schedule l ≡ₚ l) →
  outcome <$> analyze_author_research fuel w schedule author_name max_papers
                profile_index num_workers year_limit
  = Some (inr detailed_papers) →
  detailed_papers = []
  ∨ ∃ chosen_profile listed,
      chosen_profile ∈ search_author_profiles w author_name
      ∧ get_profile_papers fuel w (url chosen_profile) max_papers year_limit = Some listed
      ∧ Forall (final_record w (query_user (url chosen_profile))
                  (rows_served w (query_user (url chosen_profile)) (requests_of listed)))
          detailed_papers.
Proof.
  intros Hschedule Hrun.
  destruct (analyze_author_research _ _ _ _ _ _ _ _) as [r|] eqn:Hr; [|done].
  injection Hrun as Hout.
  destruct (analyze_returns_inv _ _ _ _ _ _ _ _ _ _ Hr Hout)
    as [[_ ->]|(p & listed & Hchosen & Hlisted & _ & Henrich & Hsummary)]; [by left|].
  right. exists p, listed. split; [by eapply py_index_elem|split; [done|]].
  rewrite enrich_in_order in Henrich by done. injection Henrich as <-.
  apply print_summary_ok in Hsummary.
  pose proof (get_profile_papers_served _ _ _ _ _ _ Hlisted) as Hserved.
  rewrite Forall_forall in Hserved. rewrite Forall_forall in Hsummary.
  apply Forall_forall. intros slot Hslot.
  destruct (Hsummary slot Hslot) as (d & -> & Htitle).
  apply list_elem_of_fmap in Hslot as (d' & [= ->] & Hd').
  apply list_elem_of_fmap in Hd' as (paper & -> & Hpaper).
  apply py_slice_to_elem in Hpaper.
  destruct (Hserved paper Hpaper) as (Hne & r0 & Hr0 & ->).
  by exists r0.
Qed.

End RunInversion.

(** ** The records of the final result *)

(** C4, as amended: every record returned by get_profile_papers is the
    record of a served row and has at least one field; a row from which no
    field can be extracted yields the empty record and is skipped, never
    included. The title is the text of the link of the title cell and is
    absent when there is no such link. The method returns on every listing
    that ends. In the final result, a list that analyze_author_research
    returns (the pool completing every work item once), every item is the
    enrichment of such a record of a row served for the chosen profile, and
    it does have a title, since the summary raises on a record without one;
    that title can be the empty string. *)
Theorem returned_records_have_a_field :
  (∀ (lib : PyLib) fuel w profile_url max_papers year_limit res,
     get_profile_papers fuel w profile_url max_papers year_limit = Some res →
     Forall (λ paper : dict, paper ≠ ∅ ∧
               ∃ r, r ∈ rows_served w (query_user profile_url) (requests_of res)
                    ∧ paper = extract_paper_info r (query_user profile_url))
       (papers_of res))
  ∧ (∀ (lib : PyLib) r user_id, extract_paper_info r user_id = ∅ ↔ no_field r)
  ∧ (∀ (lib : PyLib) user_id max_papers year_limit r rest papers,
       cap_reached max_papers papers = false →
       no_field r →
       for_rows user_id max_papers year_limit (r :: rest) papers
       = for_rows user_id max_papers year_limit rest papers)
  ∧ (∀ (lib : PyLib) r user_id,
       extract_paper_info r user_id !! "title" = a_text <$> (title_cell r ≫= title_link))
  ∧ (∀ (lib : PyLib) w profile_url max_papers year_limit bound,
       listing_ends w (query_user profile_url) bound →
       is_Some (get_profile_papers (S bound) w profile_url max_papers year_limit))
  ∧ (∀ (lib : PyLib) fuel w schedule author_name max_papers profile_index num_workers
       year_limit detailed_papers,
       (∀ l, schedule l ≡ₚ l) →
       outcome <$> analyze_author_research fuel w schedule author_name max_papers
                     profile_index num_workers year_limit
       = Some (inr detailed_papers) →
       detailed_papers = []
       ∨ ∃ chosen_profile listed,
           chosen_profile ∈ search_author_profiles w author_name
           ∧ get_profile_papers fuel w (url chosen_profile) max_papers year_limit
             = Some listed
           ∧ Forall (final_record w (query_user (url chosen_profile))
                       (rows_served w (query_user (url chosen_profile))
                          (requests_of listed)))
               detailed_papers)
  ∧ outcome <$> analyze_author_research 1 (site (one_page [title_only_row ""]) no_details)
                  id "Ada Lovelace" (Some 20) 0 4 None
    = Some (inr [Some {[ "title" := "" ]}]).
Proof.
  split; [|split; [|split; [|split; [|split; [|split]]]]].
  - intros lib. apply get_profile_papers_served.
  - intros lib. apply extract_paper_info_empty.
  - intros lib user_id max_papers year_limit r rest papers Hcap Hnone.
    apply for_rows_skip; [done|]. by apply extract_paper_info_empty.
  - intros lib r user_id. by rewrite extract_paper_info_lookup.
  - intros lib w profile_url max_papers year_limit bound.
    apply get_profile_papers_returns.
  - intros lib. apply analyze_returns_final_records.
  - reflexivity.
Qed.

Lemma returned_records_have_a_field_witness :
  Forall (λ paper : dict, paper ≠ ∅ ∧
            ∃ r, r ∈ rows_served
                       (site (one_page [blank_row; year_only_row "2020"; full_row "A" "2021"])
                          no_details)
                       (query_user sample_url) [0%nat]
                 ∧ paper = extract_paper_info r (query_user sample_url))
    [{[ "year" := "2020" ]}; full_record "A" "2021"]
  ∧ for_rows "abc123" None None [blank_row; full_row "A" "2021"] []
    = for_rows "abc123" None None [full_row "A" "2021"] []
  ∧ is_Some (get_profile_papers 1
               (site (one_page [blank_row; year_only_row "2020"; full_row "A" "2021"])
                  no_details)
               sample_url None None)
  ∧ ([Some (enriched (site (one_page [blank_row; full_row "A" "2021"]) sample_details)
              (full_record "A" "2021"))] = []
     ∨ ∃ chosen_profile listed,
         chosen_profile
           ∈ search_author_profiles
               (site (one_page [blank_row; full_row "A" "2021"]) sample_details)
               "Ada Lovelace"
         ∧ get_profile_papers 1
             (site (one_page [blank_row; full_row "A" "2021"]) sample_details)
             (url chosen_profile) (Some 20) None = Some listed
         ∧ Forall (final_record
                     (site (one_page [blank_row; full_row "A" "2021"]) sample_details)
                     (query_user (url chosen_profile))
                     (rows_served
                        (site (one_page [blank_row; full_row "A" "2021"]) sample_details)
                        (query_user (url chosen_profile)) (requests_of listed)))
             [Some (enriched
                      (site (one_page [blank_row; full_row "A" "2021"]) sample_details)
                      (full_record "A" "2021"))]).
Proof.
  split; [|split; [|split]].
  - apply (proj1 returned_records_have_a_field sample_lib 1%nat
             (site (one_page [blank_row; year_only_row "2020"; full_row "A" "2021"])
                no_details)
             sample_url None None
             (ListerResult [{[ "year" := "2020" ]}; full_record "A" "2021"] [0%nat])).
    vm_compute. reflexivity.
  - apply (proj1 (proj2 (proj2 returned_records_have_a_field)) sample_lib).
    + reflexivity.
    + vm_compute. done.
  - apply (proj1 (proj2 (proj2 (proj2 (proj2 returned_records_have_a_field)))) sample_lib
             (site (one_page [blank_row; year_only_row "2020"; full_row "A" "2021"])
                no_details)
             sample_url None None 0%nat).
    apply one_page_ends. vm_compute. lia.
  - apply (proj1 (proj2 (proj2 (proj2 (proj2 (proj2 returned_records_have_a_field)))))
             sample_lib 1%nat
             (site (one_page [blank_row; full_row "A" "2021"]) sample_details) id
             "Ada Lovelace" (Some 20) 0 4 None).
    + reflexivity.
    + reflexivity.
Defined.

(** A row with a year cell only is returned, without a title. *)
Lemma record_without_title_is_returned :
  get_profile_papers 1 (site (one_page [year_only_row "2020"]) no_details) sample_url
    None None
  = Some (ListerResult [{[ "year" := "2020" ]}] [0%nat])
  ∧ ¬ all_titled [{[ "year" := "2020" ]}].
Proof.
  split; [by vm_compute|].
  intros Hall. apply Forall_inv in Hall as (title & Htitle & _).
  by vm_compute in Htitle.
Qed.

(** * Further properties *)

(** ** The lister under its limits *)

Section LimitFacts.
Context `{PyLib}.

Lemma rows_before_stop_none user_id year_limit rows :
  truthy_int year_limit = false →
  rows_before_stop user_id year_limit rows = rows.
Proof.
  intros Hoff. induction rows as [|r rest IH]; [done|].
  cbn [rows_before_stop]. unfold disqualifies, below_year_limit.
  destruct year_limit as [limit|]; [rewrite Hoff|]; by rewrite IH.
Qed.

Lemma room_none max_papers n :
  truthy_int max_papers = false → room max_papers n = None.
Proof. intros Hoff. unfold room. destruct max_papers; by rewrite ?Hoff. Qed.

Lemma summaries_app user_id rows1 rows2 :
  summaries user_id (rows1 ++ rows2) = summaries user_id rows1 ++ summaries user_id rows2.
Proof.
  induction rows1 as [|r rest IH]; [done|]. cbn [app summaries].
  destruct (truthy_dict _); by rewrite IH.
Qed.

(** The records kept under a year limit are the first of the records of
    all the rows. *)
Lemma summaries_before_stop_prefix user_id year_limit rows :
  summaries user_id (rows_before_stop user_id year_limit rows)
    `prefix_of` summaries user_id rows.
Proof.
  induction rows as [|r rest IH]; [done|]. cbn [rows_before_stop].
  destruct (disqualifies user_id year_limit r); [apply prefix_nil|].
  cbn [summaries]. destruct (truthy_dict _); [by apply prefix_cons|done].
Qed.

Lemma take_room_prefix {A} k (l : list A) : take_room k l `prefix_of` l.
Proof. destruct k; [apply prefix_take|done]. Qed.

(** A pass of the [for] loop that ends without a [return] did what the
    pass without cap and year limit does. *)
Lemma for_rows_exhausted_free user_id max_papers year_limit rows papers papers' :
  for_rows user_id max_papers year_limit rows papers = Exhausted papers' →
  for_rows user_id None None rows papers = Exhausted papers'.
Proof.
  revert papers. induction rows as [|r rest IH]; intros papers; [done|].
  cbn [for_rows]. destruct (cap_reached max_papers papers); [done|].
  change (cap_reached None papers) with false. cbv iota.
  destruct (truthy_dict _); [|apply IH].
  destruct (below_year_limit year_limit _); [done|].
  change (below_year_limit None (extract_paper_info r user_id)) with false. apply IH.
Qed.

Lemma for_rows_free_papers user_id rows papers :
  for_rows user_id None None rows papers = Exhausted (papers ++ summaries user_id rows).
Proof.
  revert papers. induction rows as [|r rest IH]; intros papers; cbn [for_rows summaries].
  - by rewrite app_nil_r.
  - change (cap_reached None papers) with false. cbv iota.
    destruct (truthy_dict _); [|apply IH].
    change (below_year_limit None (extract_paper_info r user_id)) with false.
    cbv iota. by rewrite IH, <- app_assoc.
Qed.

Lemma for_rows_prefix_free user_id max_papers year_limit rows papers :
  exit_papers (for_rows user_id max_papers year_limit rows papers)
    `prefix_of` papers ++ summaries user_id rows.
Proof.
  rewrite for_rows_papers. apply prefix_app.
  etrans; [apply take_room_prefix|apply summaries_before_stop_prefix].
Qed.

(** The loop only adds to the records it starts with. *)
Lemma while_pages_extends fuel w user_id max_papers year_limit papers start requests res :
  while_pages fuel w user_id max_papers year_limit papers start requests = Some res →
  papers `prefix_of` papers_of res.
Proof.
  intros (new & _ & _ & _ & ->)%while_pages_spec.
  rewrite for_rows_papers. by apply prefix_app_r.
Qed.

(** The run with a cap and a year limit against the run without them. *)
Lemma while_pages_prefix_free fuel1 fuel2 w user_id max_papers year_limit
    papers start requests1 requests2 res1 res2 :
  while_pages fuel1 w user_id max_papers year_limit papers start requests1 = Some res1 →
  while_pages fuel2 w user_id None None papers start requests2 = Some res2 →
  papers_of res1 `prefix_of` papers_of res2
  ∧ requests_of res1 `prefix_of` requests1 ++ drop (length requests2) (requests_of res2).
Proof.
  revert fuel2 papers start requests1 requests2.
  induction fuel1 as [|fuel1 IH]; intros fuel2 papers start requests1 requests2; [done|].
  destruct fuel2 as [|fuel2]; [done|]. cbn [while_pages].
  assert (∀ ps1 ps2 rest,
            ps1 `prefix_of` ps2 →
            Some (ListerResult ps1 (requests1 ++ [start])) = Some res1 →
            requests_of res2 = (requests2 ++ [start]) ++ rest →
            ps2 `prefix_of` papers_of res2 →
            papers_of res1 `prefix_of` papers_of res2
            ∧ requests_of res1
                `prefix_of` requests1 ++ drop (length requests2) (requests_of res2))
    as Hstop.
  { intros ps1 ps2 rest Hps [= <-] Hreq Hps2. split; [by etrans|]. simpl.
    rewrite Hreq, <- app_assoc, drop_app_length. apply prefix_app, prefix_cons, prefix_nil. }
  destruct (listing w user_id start) as [[|r rows]|] eqn:Hpage.
  - intros Hrun1 [= <-]. by apply (Hstop papers papers []); rewrite ?app_nil_r.
  - rewrite for_rows_free_papers.
    pose proof (for_rows_prefix_free user_id max_papers year_limit (r :: rows) papers)
      as Hprefix.
    remember (papers ++ summaries user_id (r :: rows)) as all eqn:Hall.
    destruct (for_rows user_id max_papers year_limit (r :: rows) papers)
      as [papers1|papers1] eqn:Hfor.
    + simpl in Hprefix. destruct (_ <? _)%nat.
      * intros Hrun1 [= <-]. apply (Hstop papers1 all []); rewrite ?app_nil_r; done.
      * intros Hrun1 Hrun2.
        pose proof (while_pages_extends _ _ _ _ _ _ _ _ _ Hrun2) as Hext.
        apply while_pages_spec in Hrun2 as (new & Hreq & _).
        apply (Hstop papers1 all new); done.
    + apply for_rows_exhausted_free in Hfor as Hfree.
      rewrite for_rows_free_papers, <- Hall in Hfree. injection Hfree as <-.
      destruct (_ <? _)%nat.
      * intros Hrun1 [= <-]. apply (Hstop all all []); rewrite ?app_nil_r; done.
      * intros Hrun1 Hrun2.
        destruct (IH _ _ _ _ _ Hrun1 Hrun2) as [Hps Hreqs]. split; [done|].
        apply while_pages_spec in Hrun2 as (new & Hreq & _).
        rewrite Hreq in Hreqs |- *.
        rewrite drop_app_length in Hreqs.
        rewrite <- (app_assoc requests2), drop_app_length.
        by rewrite <- app_assoc in Hreqs.
  - intros Hrun1 [= <-]. by apply (Hstop papers papers []); rewrite ?app_nil_r.
Qed.

Lemma room_cap N n : 1 ≤ N → room (Some N) n = Some (Z.to_nat (N - Z.of_nat n)).
Proof.
  intros HN. unfold room, truthy_int. by destruct (N =? 0) eqn:HN0; [lia|].
Qed.

(** Under a cap the [for] loop keeps the first records of the pass
    without the cap. *)
Lemma for_rows_cap_take user_id N year_limit rows papers :
  1 ≤ N → Z.of_nat (length papers) ≤ N →
  exit_papers (for_rows user_id (Some N) year_limit rows papers)
  = take (Z.to_nat N) (exit_papers (for_rows user_id None year_limit rows papers)).
Proof.
  intros HN Hlen. rewrite !for_rows_papers, room_cap by done. simpl.
  rewrite take_app_ge by lia. do 2 f_equal. lia.
Qed.

Lemma for_rows_exhausted_uncapped user_id max_papers year_limit rows papers papers' :
  for_rows user_id max_papers year_limit rows papers = Exhausted papers' →
  for_rows user_id None year_limit rows papers = Exhausted papers'.
Proof.
  revert papers. induction rows as [|r rest IH]; intros papers; [done|].
  cbn [for_rows]. destruct (cap_reached max_papers papers); [done|].
  change (cap_reached None papers) with false. cbv iota.
  destruct (truthy_dict _); [|apply IH].
  destruct (below_year_limit year_limit _); [done|apply IH].
Qed.

(** When the cap makes the loop return where it would otherwise go on,
    the cap is reached. *)
Lemma for_rows_cap_full user_id N year_limit rows papers papers1 papers2 :
  for_rows user_id (Some N) year_limit rows papers = Returned papers1 →
  for_rows user_id None year_limit rows papers = Exhausted papers2 →
  N ≤ Z.of_nat (length papers1).
Proof.
  revert papers. induction rows as [|r rest IH]; intros papers; [done|].
  cbn [for_rows]. destruct (cap_reached (Some N) papers) eqn:Hcap.
  { intros [= <-] _. unfold cap_reached in Hcap.
    apply andb_true_iff in Hcap as [_ Hle]. by apply Z.leb_le. }
  change (cap_reached None papers) with false. cbv iota.
  destruct (truthy_dict _); [|apply IH].
  destruct (below_year_limit year_limit _); [done|apply IH].
Qed.

Lemma while_pages_cap_take fuel1 fuel2 w user_id N year_limit
    papers start requests1 requests2 res1 res2 :
  1 ≤ N → Z.of_nat (length papers) ≤ N →
  while_pages fuel1 w user_id (Some N) year_limit papers start requests1 = Some res1 →
  while_pages fuel2 w user_id None year_limit papers start requests2 = Some res2 →
  papers_of res1 = take (Z.to_nat N) (papers_of res2).
Proof.
  intros HN. revert fuel2 papers start requests1 requests2.
  induction fuel1 as [|fuel1 IH]; intros fuel2 papers start requests1 requests2 Hlen;
    [done|].
  destruct fuel2 as [|fuel2]; [done|]. cbn [while_pages].
  destruct (listing w user_id start) as [[|r rows]|] eqn:Hpage.
  1, 3: intros [= <-] [= <-]; simpl; rewrite take_ge; [done|lia].
  pose proof (for_rows_cap_take user_id N year_limit (r :: rows) papers HN Hlen) as Htake.
  destruct (for_rows user_id (Some N) year_limit (r :: rows) papers)
    as [papers1|papers1] eqn:Hfor1.
  - destruct (for_rows user_id None year_limit (r :: rows) papers)
      as [papers2|papers2] eqn:Hfor2; simpl in Htake.
    + by intros [= <-] [= <-].
    + pose proof (for_rows_cap_full _ _ _ _ _ _ _ Hfor1 Hfor2) as Hfull.
      assert (Z.to_nat N ≤ length papers2)%nat as Hlong.
      { assert (length papers1 ≤ length papers2)%nat; [|lia].
        rewrite Htake, length_take. lia. }
      destruct (_ <? _)%nat.
      * by intros [= <-] [= <-].
      * intros [= <-] Hrun2. simpl.
        destruct (while_pages_extends _ _ _ _ _ _ _ _ _ Hrun2) as [more ->].
        by rewrite take_app_le.
  - apply for_rows_exhausted_uncapped in Hfor1 as Hfor2. rewrite Hfor2 in Htake |- *.
    simpl in Htake.
    destruct (_ <? _)%nat.
    + by intros [= <-] [= <-].
    + apply IH. rewrite Htake, length_take. lia.
Qed.

(** The offsets requested grow by at least a page. *)
Lemma offsets_grow w user_id start requests :
  offsets_from w user_id start requests →
  short_page_last w user_id requests →
  ∀ i o, requests !! i = Some o → (start + page_size * i ≤ o)%nat.
Proof.
  revert start. induction requests as [|o1 rest IH]; intros start Hoff Hshort i o; [done|].
  destruct Hoff as [-> Hoff]. destruct i as [|i]; simpl.
  - intros [= <-]. lia.
  - intros Hi.
    assert (page_size ≤ length (page_rows w user_id start))%nat as Hfull.
    { destruct (decide (length (page_rows w user_id start) < page_size)%nat) as [Hlt|]; [|lia].
      specialize (Hshort 0%nat start eq_refl Hlt). simpl in Hshort.
      apply lookup_lt_Some in Hi. lia. }
    assert (short_page_last w user_id rest) as Hrest.
    { intros j oj Hj Hlt. specialize (Hshort (S j) oj Hj Hlt). simpl in Hshort. lia. }
    specialize (IH _ Hoff Hrest i o Hi). unfold page_size in *. lia.
Qed.

(** Two requested offsets are at least a page apart per request between
    them. *)
Lemma offsets_apart w user_id start requests i j oi oj :
  offsets_from w user_id start requests →
  short_page_last w user_id requests →
  (i < j)%nat →
  requests !! i = Some oi →
  requests !! j = Some oj →
  (oi + page_size * (j - i) ≤ oj)%nat.
Proof.
  revert start i j.
  induction requests as [|o1 rest IH]; intros start i j Hoff Hshort Hij Hi Hj; [done|].
  destruct Hoff as [-> Hoff]. destruct j as [|j]; [lia|].
  assert (short_page_last w user_id rest) as Hrest.
  { intros k ok Hk Hlt. specialize (Hshort (S k) ok Hk Hlt). simpl in Hshort. lia. }
  destruct i as [|i]; simpl in Hi, Hj.
  - injection Hi as <-.
    assert (page_size ≤ length (page_rows w user_id start))%nat as Hfull.
    { destruct (decide (length (page_rows w user_id start) < page_size)%nat) as [Hlt|]; [|lia].
      specialize (Hshort 0%nat start eq_refl Hlt). simpl in Hshort.
      apply lookup_lt_Some in Hj. lia. }
    pose proof (offsets_grow _ _ _ _ Hoff Hrest j oj Hj). unfold page_size in *. lia.
  - specialize (IH _ i j Hoff Hrest ltac:(lia) Hi Hj). unfold page_size in *. lia.
Qed.

End LimitFacts.

(** X1: the cap and the year limit only cut the result short: what
    get_profile_papers returns with them is the beginning of what it returns
    without them on the same site, and its requests are the first of the
    requests made without them. *)
Theorem limits_only_truncate :
  ∀ (lib : PyLib) fuel1 fuel2 w profile_url max_papers year_limit res1 res2,
    get_profile_papers fuel1 w profile_url max_papers year_limit = Some res1 →
    get_profile_papers fuel2 w profile_url None None = Some res2 →
    papers_of res1 `prefix_of` papers_of res2
    ∧ requests_of res1 `prefix_of` requests_of res2.
Proof.
  intros lib fuel1 fuel2 w profile_url max_papers year_limit res1 res2.
  unfold get_profile_papers. destruct (negb _).
  { by intros [= <-] [= <-]. }
  intros Hrun1 Hrun2.
  by destruct (while_pages_prefix_free _ _ _ _ _ _ _ _ _ _ _ _ Hrun1 Hrun2).
Qed.

Lemma limits_only_truncate_witness :
  [full_record "A" "2021"; full_record "B" "2020"]
    `prefix_of` [full_record "A" "2021"; full_record "B" "2020";
                 full_record "C" "2019"; full_record "D" "2022"]
  ∧ [0%nat] `prefix_of` [0%nat].
Proof.
  apply (limits_only_truncate sample_lib 1%nat 1%nat
           (site (one_page year_limit_rows) no_details) sample_url (Some 5) (Some 2020)
           (ListerResult [full_record "A" "2021"; full_record "B" "2020"] [0%nat])
           (ListerResult [full_record "A" "2021"; full_record "B" "2020";
                          full_record "C" "2019"; full_record "D" "2022"] [0%nat])).
  - reflexivity.
  - reflexivity.
Defined.

(** X2: with a cap N >= 1, get_profile_papers returns exactly the first N
    records of what it returns without the cap (same site, same year
    limit). *)
Theorem cap_takes_first_records :
  ∀ (lib : PyLib) fuel1 fuel2 w profile_url N year_limit res1 res2,
    1 ≤ N →
    get_profile_papers fuel1 w profile_url (Some N) year_limit = Some res1 →
    get_profile_papers fuel2 w profile_url None year_limit = Some res2 →
    papers_of res1 = take (Z.to_nat N) (papers_of res2).
Proof.
  intros lib fuel1 fuel2 w profile_url N year_limit res1 res2 HN.
  unfold get_profile_papers. destruct (negb _).
  { intros [= <-] [= <-]. simpl. by rewrite take_nil. }
  apply while_pages_cap_take; [done|simpl; lia].
Qed.

Lemma cap_takes_first_records_witness :
  [full_record "A" "2021"; full_record "B" "2020"; full_record "C" "2019"]
  = take (Z.to_nat 3)
      [full_record "A" "2021"; full_record "B" "2020";
       full_record "C" "2019"; full_record "D" "2022"].
Proof.
  apply (cap_takes_first_records sample_lib 1%nat 1%nat
           (site (one_page year_limit_rows) no_details) sample_url 3 None
           (ListerResult [full_record "A" "2021"; full_record "B" "2020";
                          full_record "C" "2019"] [0%nat])
           (ListerResult [full_record "A" "2021"; full_record "B" "2020";
                          full_record "C" "2019"; full_record "D" "2022"] [0%nat])).
  - lia.
  - reflexivity.
  - reflexivity.
Defined.

(** X3: without a cap and without a year limit in force (None or 0),
    get_profile_papers returns the records of all the rows served that
    yield a field, in the order served. *)
Theorem no_limits_returns_every_record :
  ∀ (lib : PyLib) fuel w profile_url max_papers year_limit res,
    truthy_int max_papers = false →
    truthy_int year_limit = false →
    get_profile_papers fuel w profile_url max_papers year_limit = Some res →
    papers_of res
    = summaries (query_user profile_url)
        (rows_served w (query_user profile_url) (requests_of res)).
Proof.
  intros lib fuel w profile_url max_papers year_limit res Hcap Hyear
    (_ & _ & ->)%get_profile_papers_spec.
  by rewrite room_none, rows_before_stop_none.
Qed.

Lemma no_limits_returns_every_record_witness :
  [{[ "year" := "2019" ]}; full_record "A" "2021"]
  = summaries (query_user sample_url)
      (rows_served (site (one_page [year_only_row "2019"; blank_row; full_row "A" "2021"])
                      no_details)
         (query_user sample_url) [0%nat]).
Proof.
  apply (no_limits_returns_every_record sample_lib 1%nat
           (site (one_page [year_only_row "2019"; blank_row; full_row "A" "2021"])
              no_details)
           sample_url (Some 0) None
           (ListerResult [{[ "year" := "2019" ]}; full_record "A" "2021"] [0%nat])).
  - reflexivity.
  - reflexivity.
  - reflexivity.
Defined.

(** X4: the offsets requested by get_profile_papers start at 0 and each
    later one exceeds an earlier one by at least 100 per request in
    between: no offset is requested twice. *)
Theorem offsets_strictly_increase :
  ∀ (lib : PyLib) fuel w profile_url max_papers year_limit res i j oi oj,
    get_profile_papers fuel w profile_url max_papers year_limit = Some res →
    (i < j)%nat →
    requests_of res !! i = Some oi →
    requests_of res !! j = Some oj →
    (100 * i ≤ oi ∧ oi + 100 * (j - i) ≤ oj)%nat.
Proof.
  intros lib fuel w profile_url max_papers year_limit res i j oi oj
    (Hoff & Hshort & _)%get_profile_papers_spec.
  set (user_id := query_user profile_url) in *.
  intros Hij Hi Hj. split.
  - pose proof (offsets_grow _ _ _ _ Hoff Hshort i oi Hi). unfold page_size in *. lia.
  - pose proof (offsets_apart _ _ _ _ _ _ _ _ Hoff Hshort Hij Hi Hj).
    unfold page_size in *. lia.
Qed.

Lemma offsets_strictly_increase_witness :
  (100 * 0 ≤ 0 ∧ 0 + 100 * (1 - 0) ≤ 100)%nat.
Proof.
  apply (offsets_strictly_increase sample_lib 2%nat
           (site (two_pages (replicate 100 blank_row) (replicate 37 blank_row)) no_details)
           sample_url None None (ListerResult [] [0; 100]%nat) 0%nat 1%nat 0%nat 100%nat).
  - reflexivity.
  - lia.
  - reflexivity.
  - reflexivity.
Defined.

(** X5: a request that fails, or that comes back without rows, is the last
    one, and get_profile_papers returns what the earlier pages gave: the
    partial result is kept. *)
Theorem failed_request_keeps_partial_result :
  ∀ (lib : PyLib) fuel w profile_url max_papers year_limit res i o,
    get_profile_papers fuel w profile_url max_papers year_limit = Some res →
    requests_of res !! i = Some o →
    page_rows w (query_user profile_url) o = [] →
    requests_of res = take i (requests_of res) ++ [o]
    ∧ papers_of res
      = take_room (room max_papers 0)
          (summaries (query_user profile_url)
             (rows_before_stop (query_user profile_url) year_limit
                (rows_served w (query_user profile_url) (take i (requests_of res))))).
Proof.
  intros lib fuel w profile_url max_papers year_limit res i o
    (_ & Hshort & Hpapers)%get_profile_papers_spec Hi Hempty.
  set (user_id := query_user profile_url) in *.
  assert (requests_of res = take i (requests_of res) ++ [o]) as Hsplit.
  { specialize (Hshort i o Hi). rewrite Hempty in Hshort.
    specialize (Hshort ltac:(unfold page_size; simpl; lia)).
    rewrite <- (take_drop i (requests_of res)) at 1. f_equal.
    rewrite (drop_S _ o i Hi), drop_ge by lia. done. }
  split; [done|]. rewrite Hpapers. rewrite Hsplit at 1.
  unfold rows_served. rewrite fmap_app, join_app. simpl.
  by rewrite Hempty, !app_nil_r.
Qed.

Lemma failed_request_keeps_partial_result_witness :
  [0; 100]%nat = take 1 [0; 100]%nat ++ [100%nat]
  ∧ replicate 100 ({[ "title" := "T" ]} : dict)
    = take_room (room None 0)
        (summaries (query_user sample_url)
           (rows_before_stop (query_user sample_url) None
              (rows_served
                 (site (failing_second_page (replicate 100 (title_only_row "T"))) no_details)
                 (query_user sample_url) (take 1 [0; 100]%nat)))).
Proof.
  apply (failed_request_keeps_partial_result sample_lib 2%nat
           (site (failing_second_page (replicate 100 (title_only_row "T"))) no_details)
           sample_url None None
           (ListerResult (replicate 100 {[ "title" := "T" ]}) [0; 100]%nat) 1%nat 100%nat).
  - reflexivity.
  - reflexivity.
  - reflexivity.
Defined.

Section DetailFacts.
Context `{PyLib}.

Lemma foldl_add_detail_row rows (details : dict) key :
  foldl add_detail_row details rows !! key
  = match last_field rows key with
    | Some value => Some value
    | None => details !! key
    end.
Proof.
  revert details. induction rows as [|r rest IH]; intros details; [done|].
  cbn [foldl last_field]. rewrite IH. destruct (last_field rest key); [done|].
  unfold add_detail_row.
  destruct (field_div r) as [field|], (value_div r) as [value|]; try done.
  destruct (decide (field = key)) as [->|Hne].
  - by rewrite lookup_insert_eq.
  - by rewrite lookup_insert_ne.
Qed.

Lemma get_paper_details_lookup w paper_detail_url page key :
  detail w paper_detail_url = Some page →
  get_paper_details w paper_detail_url !! key = detail_field page key.
Proof.
  intros Hpage. unfold get_paper_details, detail_field. rewrite Hpage.
  destruct (description_div page) as [text|].
  - destruct (decide (key = "abstract")) as [->|Hne].
    + by rewrite lookup_insert_eq.
    + rewrite lookup_insert_ne by done.
      destruct (details_table page) as [rows|]; simpl; [|done].
      rewrite foldl_add_detail_row. by destruct (last_field rows key).
  - destruct (details_table page) as [rows|]; simpl; [|done].
    rewrite foldl_add_detail_row. by destruct (last_field rows key).
Qed.

Lemma get_paper_details_failed w paper_detail_url :
  detail w paper_detail_url = None → get_paper_details w paper_detail_url = ∅.
Proof. intros Hfail. unfold get_paper_details. by rewrite Hfail. Qed.

Lemma enriched_lookup w (paper : dict) key :
  enriched w paper !! key
  = match paper !! "detail_url" with
    | Some detail_url =>
        match get_paper_details w detail_url !! key with
        | Some value => Some value
        | None => paper !! key
        end
    | None => paper !! key
    end.
Proof.
  unfold enriched, dict_update. destruct (paper !! "detail_url") as [detail_url|]; [|done].
  rewrite lookup_union. by destruct (get_paper_details w detail_url !! key), (paper !! key).
Qed.

Lemma enriched_unchanged w (paper : dict) :
  (∀ detail_url, paper !! "detail_url" = Some detail_url → detail w detail_url = None) →
  enriched w paper = paper.
Proof.
  intros Hfail. unfold enriched, dict_update.
  destruct (paper !! "detail_url") as [detail_url|] eqn:Hurl; [|done].
  rewrite get_paper_details_failed by by apply Hfail. apply (left_id_L ∅ (∪)).
Qed.

End DetailFacts.

(** X6: a detail page gives, for every label, the value of the last row of
    the detail table that has both a field and a value div with that
    label; rows lacking either div are passed over; the description, when
    present, is stored under abstract and replaces a table row of that
    name. A request that fails gives the empty dict. *)
Theorem details_take_last_row_and_description :
  (∀ (lib : PyLib) w paper_detail_url page key,
     detail w paper_detail_url = Some page →
     get_paper_details w paper_detail_url !! key = detail_field page key)
  ∧ (∀ (lib : PyLib) w paper_detail_url,
       detail w paper_detail_url = None → get_paper_details w paper_detail_url = ∅).
Proof.
  split.
  - intros lib. apply get_paper_details_lookup.
  - intros lib. apply get_paper_details_failed.
Qed.

(** X7: enriching a paper never removes one of its fields; a field named
    by the detail page takes the value of the detail page, also when the
    listing had set it; every other field keeps its value. *)
Theorem enrichment_keeps_fields :
  ∀ (lib : PyLib) w (paper : dict),
    (∀ key, is_Some (paper !! key) → is_Some (enriched w paper !! key))
    ∧ (∀ detail_url key value,
         paper !! "detail_url" = Some detail_url →
         get_paper_details w detail_url !! key = Some value →
         enriched w paper !! key = Some value)
    ∧ (∀ key,
         (∀ detail_url, paper !! "detail_url" = Some detail_url →
                        get_paper_details w detail_url !! key = None) →
         enriched w paper !! key = paper !! key).
Proof.
  intros lib w paper. split; [|split].
  - intros key Hkey. rewrite enriched_lookup.
    destruct (paper !! "detail_url") as [detail_url|]; [|done].
    by destruct (get_paper_details w detail_url !! key).
  - intros detail_url key value Hurl Hvalue. by rewrite enriched_lookup, Hurl, Hvalue.
  - intros key Hnone. rewrite enriched_lookup.
    destruct (paper !! "detail_url") as [detail_url|]; [|done].
    by rewrite Hnone.
Qed.

(** X8: enriching an enriched paper again changes nothing, provided its
    detail page has no field labelled detail_url. *)
Theorem enrichment_is_idempotent :
  ∀ (lib : PyLib) w (paper : dict),
    (∀ detail_url, paper !! "detail_url" = Some detail_url →
                   get_paper_details w detail_url !! "detail_url" = None) →
    enriched w (enriched w paper) = enriched w paper.
Proof.
  intros lib w paper Hurl.
  destruct (paper !! "detail_url") as [detail_url|] eqn:Hpaper.
  - assert (enriched w paper = get_paper_details w detail_url ∪ paper) as Honce.
    { unfold enriched, dict_update. by rewrite Hpaper. }
    rewrite Honce. unfold enriched, dict_update.
    rewrite lookup_union_r by by apply Hurl. rewrite Hpaper.
    by rewrite (assoc_L (∪)), (idemp_L (∪)).
  - assert (enriched w paper = paper) as Honce.
    { unfold enriched. by rewrite Hpaper. }
    by rewrite !Honce.
Qed.

(** X9: the record of a listing row has no key besides title, detail_url,
    authors, venue, citations and year; it has a detail_url only together
    with a title, and a venue only together with authors. *)
Theorem listing_record_keys :
  ∀ (lib : PyLib) r user_id,
    (∀ key, is_Some (extract_paper_info r user_id !! key) → key ∈ listing_keys)
    ∧ (is_Some (extract_paper_info r user_id !! "detail_url") →
       is_Some (extract_paper_info r user_id !! "title"))
    ∧ (is_Some (extract_paper_info r user_id !! "venue") →
       is_Some (extract_paper_info r user_id !! "authors")).
Proof.
  intros lib r user_id. rewrite !extract_paper_info_lookup. split; [|split].
  - intros key. rewrite extract_paper_info_lookup. unfold extracted_field, listing_keys.
    destruct (detail_url_raises r); repeat case_decide; subst; intros Hsome; set_solver.
  - unfold extracted_field. simpl. destruct (detail_url_raises r); [by intros [? ?]|].
    destruct (title_cell r ≫= title_link); [by eauto|by intros []].
  - unfold extracted_field. simpl. destruct (detail_url_raises r); [by intros [? ?]|].
    destruct (title_cell r) as [c|]; simpl; [|by intros []].
    destruct (gray_divs c) as [|authors [|venue divs]]; simpl; by eauto.
Qed.

Lemma details_take_last_row_and_description_witness :
  get_paper_details (site (one_page []) (λ _, Some repeated_details)) "any" !! "Pages"
  = detail_field repeated_details "Pages"
  ∧ get_paper_details (site (one_page []) no_details) "any" = ∅.
Proof.
  split.
  - apply (proj1 details_take_last_row_and_description sample_lib
             (site (one_page []) (λ _, Some repeated_details)) "any" repeated_details
             "Pages").
    reflexivity.
  - apply (proj2 details_take_last_row_and_description sample_lib
             (site (one_page []) no_details) "any").
    reflexivity.
Defined.

(** On the sample page the last Pages row wins, the description replaces
    the abstract row, and the row without a label leaves nothing. *)
Example repeated_details_fields :
  map_to_list (get_paper_details (site (one_page []) (λ _, Some repeated_details)) "any")
  ≡ₚ [("Pages", "3-4"); ("abstract", "from the description")].
Proof. vm_compute. apply perm_swap. Qed.

Lemma enrichment_keeps_fields_witness :
  is_Some (enriched (site (one_page []) sample_details) (full_record "A" "2021") !! "year")
  ∧ enriched (site (one_page []) sample_details) (full_record "A" "2021") !! "Journal"
    = Some "Scientific Memoirs"
  ∧ enriched (site (one_page []) sample_details) (full_record "A" "2021") !! "title"
    = full_record "A" "2021" !! "title".
Proof.
  destruct (enrichment_keeps_fields sample_lib (site (one_page []) sample_details)
              (full_record "A" "2021")) as (Hkept & Hdetail & Hother).
  split; [|split].
  - apply Hkept. vm_compute. by eexists.
  - apply (Hdetail "https://scholar.google.com/citations?view_op=view_citation&for=A").
    + reflexivity.
    + reflexivity.
  - apply Hother. intros detail_url Hurl. vm_compute in Hurl.
    injection Hurl as <-. reflexivity.
Defined.

Lemma enrichment_is_idempotent_witness :
  enriched (site (one_page []) sample_details)
    (enriched (site (one_page []) sample_details) (full_record "A" "2021"))
  = enriched (site (one_page []) sample_details) (full_record "A" "2021").
Proof.
  apply (enrichment_is_idempotent sample_lib (site (one_page []) sample_details)
           (full_record "A" "2021")).
  intros detail_url Hurl. vm_compute in Hurl. injection Hurl as <-.
  reflexivity.
Defined.

Lemma listing_record_keys_witness :
  "venue" ∈ listing_keys
  ∧ is_Some (extract_paper_info (full_row "A" "2021") "abc123" !! "title")
  ∧ is_Some (extract_paper_info (full_row "A" "2021") "abc123" !! "authors").
Proof.
  destruct (listing_record_keys sample_lib (full_row "A" "2021") "abc123")
    as (Hkeys & Htitle & Hauthors).
  split; [|split].
  - apply Hkeys. vm_compute. by eexists.
  - apply Htitle. vm_compute. by eexists.
  - apply Hauthors. vm_compute. by eexists.
Defined.

(** X20: in the enrichment stage a paper without a detail reference, or
    whose detail request fails, comes out unchanged at its own index,
    whatever the order of completion; the other papers are enriched as
    usual. *)
Theorem failed_detail_leaves_paper_unchanged :
  ∀ (lib : PyLib) w completion arrival (papers : list dict) i paper,
    completion ≡ₚ enumerate_papers papers →
    arrival ≡ₚ enumerate_papers papers →
    papers !! i = Some paper →
    (∀ detail_url, paper !! "detail_url" = Some detail_url → detail w detail_url = None) →
    ∃ detailed_papers,
      enrich w completion arrival papers = inr detailed_papers
      ∧ detailed_papers !! i = Some (Some paper)
      ∧ ∀ j other, papers !! j = Some other →
                   detailed_papers !! j = Some (Some (enriched w other)).
Proof.
  intros lib w completion arrival papers i paper Hcompletion Harrival Hi Hfail.
  exists (Some <$> (enriched w <$> papers)).
  split; [by apply enrich_in_order|split].
  - rewrite !list_lookup_fmap, Hi. simpl. by rewrite enriched_unchanged.
  - intros j other Hj. by rewrite !list_lookup_fmap, Hj.
Qed.

Lemma failed_detail_leaves_paper_unchanged_witness :
  ∃ detailed_papers,
    enrich (site (one_page []) sample_details)
      [(2, 2); (0, 0); (1, 1)]%nat [(1, 1); (2, 2); (0, 0)]%nat sample_papers
    = inr detailed_papers
    ∧ detailed_papers !! 2%nat = Some (Some (full_record "B" "2020"))
    ∧ ∀ j other, sample_papers !! j = Some other →
                 detailed_papers !! j
                 = Some (Some (enriched (site (one_page []) sample_details) other)).
Proof.
  apply (failed_detail_leaves_paper_unchanged sample_lib
           (site (one_page []) sample_details)
           [(2, 2); (0, 0); (1, 1)]%nat [(1, 1); (2, 2); (0, 0)]%nat sample_papers
           2%nat (full_record "B" "2020")).
  - change (enumerate_papers sample_papers) with [(0, 0); (1, 1); (2, 2)]%nat.
    apply (Permutation_cons_app [(0, 0); (1, 1)]%nat [] (2, 2)%nat). reflexivity.
  - change (enumerate_papers sample_papers) with [(0, 0); (1, 1); (2, 2)]%nat.
    apply (Permutation_cons_app [(0, 0)]%nat [(2, 2)]%nat (1, 1)%nat). apply perm_swap.
  - reflexivity.
  - intros detail_url Hurl. vm_compute in Hurl. injection Hurl as <-.
    reflexivity.
Defined.


Section SearchFacts.
Context `{PyLib}.

Lemma search_author_profiles_headings w author_name :
  search_author_profiles w author_name
  = match for_headings (profile_headings w author_name) [] with
    | inr profiles => profiles
    | inl _ => []
    end.
Proof.
  unfold search_author_profiles, profile_headings.
  destruct (search w author_name) as [soup|]; [|done].
  destruct (profile_header soup) as [header_text|]; [|done].
  destruct (profile_table soup) as [author_links|].
  - by destruct (str_contains _ _).
  - by destruct (str_contains _ _).
Qed.






End SearchFacts.

Section TextFacts.

Lemma append_cons c s1 s2 : String c s1 +:+ s2 = String c (s1 +:+ s2).
Proof. reflexivity. Qed.

Lemma append_empty s : s +:+ "" = s.
Proof. induction s as [|c s IH]; [done|]. by rewrite append_cons, IH. Qed.

Lemma str_take_all n s : (py_len s ≤ n)%nat → str_take n s = s.
Proof.
  revert n. induction s as [|c s IH]; intros n Hlen; [done|]. simpl in *.
  destruct (continuation c).
  - f_equal. by apply IH.
  - destruct n as [|n]; [lia|]. f_equal. apply IH. lia.
Qed.

Lemma str_take_py_len n s : py_len (str_take n s) = min n (py_len s).
Proof.
  revert n. induction s as [|c s IH]; intros n; simpl.
  - by destruct n.
  - destruct (continuation c) eqn:Hc.
    + simpl. by rewrite Hc, IH.
    + destruct n as [|n]; [done|]. simpl. by rewrite Hc, IH.
Qed.

(** A slice that leaves something out ends where a code point starts. *)
Lemma str_take_cut n s :
  (n < py_len s)%nat →
  ∃ c rest, s = str_take n s +:+ String c rest ∧ continuation c = false.
Proof.
  revert n. induction s as [|c s IH]; intros n Hlen; simpl in *; [lia|].
  destruct (continuation c) eqn:Hc.
  - destruct (IH n Hlen) as (c' & rest & Hs & Hc'). exists c', rest.
    split; [|done]. rewrite append_cons. by f_equal.
  - destruct n as [|n].
    + by exists c, s.
    + destruct (IH n ltac:(lia)) as (c' & rest & Hs & Hc'). exists c', rest.
      split; [|done]. rewrite append_cons. by f_equal.
Qed.

Lemma clip_cut_to n s : cut_to n s (clip n s).
Proof.
  unfold cut_to, clip. split.
  - intros Hshort. rewrite (proj2 (Nat.ltb_ge n (py_len s))) by done.
    by rewrite str_take_all, append_empty.
  - intros Hlong. rewrite (proj2 (Nat.ltb_lt n (py_len s))) by done.
    destruct (str_take_cut n s Hlong) as (c & rest & Hs & Hc).
    exists (str_take n s), c, rest. split; [done|split; [|done]].
    rewrite str_take_py_len. lia.
Qed.

End TextFacts.



(** X11: when the search page has no profile section, or no heading of
    that section links to a profile (an href containing /citations?user=),
    there is no candidate, and analyze_author_research returns the empty
    list after printing "No profiles found!", without listing anything (it
    needs no fuel). *)
Theorem no_profiles_returns_nothing :
  ∀ (lib : PyLib) fuel w schedule author_name max_papers profile_index num_workers
    year_limit,
    Forall (λ h, ∀ link, h4_link h = Some link →
                         str_contains "/citations?user=" (get_href link) = false)
      (profile_headings w author_name) →
    search_author_profiles w author_name = []
    ∧ ∃ out,
        analyze_author_research fuel w schedule author_name max_papers profile_index
          num_workers year_limit
        = Some (Run (out ++ ["No profiles found!"]) (inr [])).
Proof.
  intros lib fuel w schedule author_name max_papers profile_index num_workers
    year_limit Hnone.
  assert (search_author_profiles w author_name = []) as Hempty.
  { rewrite search_author_profiles_headings.
    assert (∀ profiles,
              for_headings (profile_headings w author_name) profiles = inr profiles)
      as ->; [|done].
    induction Hnone as [|h hs Hh _ IH]; intros profiles; [done|].
    cbn [for_headings]. unfold profile_of_heading at 1.
    destruct (h4_link h) as [link|]; [|apply IH].
    rewrite (Hh link eq_refl). apply IH. }
  split; [done|].
  unfold analyze_author_research. rewrite Hempty. by eexists.
Qed.

Lemma no_profiles_returns_nothing_witness :
  search_author_profiles site_without_profiles "Nobody" = []
  ∧ ∃ out,
      analyze_author_research 0 site_without_profiles id "Nobody" (Some 20) 0 4 None
      = Some (Run (out ++ ["No profiles found!"]) (inr [])).
Proof.
  apply (no_profiles_returns_nothing sample_lib 0%nat site_without_profiles id "Nobody"
           (Some 20) 0 4 None).
  constructor.
Defined.

(** X12: the summary loop raises exactly when some record has no title;
    the exception is then KeyError on title. *)
Theorem summary_raises_iff_title_missing :
  ∀ (lib : PyLib) i (papers : list dict),
    ((print_summary i (Some <$> papers)).2 = None ↔
     Forall (λ paper : dict, is_Some (paper !! "title")) papers)
    ∧ (¬ Forall (λ paper : dict, is_Some (paper !! "title")) papers →
       (print_summary i (Some <$> papers)).2 = Some (KeyError "title")).
Proof.
  intros lib i papers.
  assert ((print_summary i (Some <$> papers)).2 = None ↔
          Forall (λ paper : dict, is_Some (paper !! "title")) papers) as Hiff.
  { rewrite print_summary_ok, Forall_fmap. apply Forall_iff. intros paper. simpl.
    split; [by intros (paper' & [= <-] & ?)|by eauto]. }
  split; [done|]. intros Hmissing.
  destruct (print_summary i (Some <$> papers)).2 as [e|] eqn:Hexn.
  - f_equal. by eapply print_summary_error.
  - exfalso. by apply Hmissing, Hiff.
Qed.

Lemma summary_raises_iff_title_missing_witness :
  (print_summary 1 (Some <$> [full_record "A" "2021"; {[ "citations" := "0" ]}])).2
  = Some (KeyError "title").
Proof.
  apply (proj2 (summary_raises_iff_title_missing sample_lib 1%nat
                  [full_record "A" "2021"; {[ "citations" := "0" ]}])).
  intros Hall. apply Forall_cons in Hall as [_ Hall].
  apply Forall_cons in Hall as [[title Htitle] _].
  vm_compute in Htitle. discriminate Htitle.
Defined.

(** X13: a run of analyze_author_research that returns a list returns
    filled slots whose records all have a title, and at most max_papers of
    them when max_papers is an integer >= 0. *)
Theorem returned_list_is_titled_and_bounded :
  ∀ (lib : PyLib) fuel w schedule author_name max_papers profile_index num_workers
    year_limit detailed_papers,
    outcome <$> analyze_author_research fuel w schedule author_name max_papers
                  profile_index num_workers year_limit
    = Some (inr detailed_papers) →
    Forall titled_slot detailed_papers
    ∧ (∀ N, max_papers = Some N → 0 ≤ N → Z.of_nat (length detailed_papers) ≤ N).
Proof.
  intros lib fuel w schedule author_name max_papers profile_index num_workers
    year_limit detailed_papers Hrun.
  destruct (analyze_author_research _ _ _ _ _ _ _ _) as [r|] eqn:Hr; [|done].
  injection Hrun as Hout.
  destruct (analyze_returns_inv _ _ _ _ _ _ _ _ _ _ Hr Hout)
    as [[_ ->]|(p & listed & _ & _ & _ & Henrich & Hsummary)].
  { split; [constructor|]. intros N _ HN. simpl. lia. }
  split; [by apply print_summary_ok in Hsummary|].
  intros N -> HN. rewrite enrich_submitted_contents in Henrich.
  injection Henrich as <-. rewrite length_fmap, run_pool_length.
  by apply py_slice_to_length.
Qed.

Lemma returned_list_is_titled_and_bounded_witness :
  Forall titled_slot
    [Some (full_record "A" "2021"); Some (full_record "B" "2020");
     Some (full_record "C" "2019")]
  ∧ Z.of_nat (length [Some (full_record "A" "2021"); Some (full_record "B" "2020");
                      Some (full_record "C" "2019")]) ≤ 3.
Proof.
  destruct (returned_list_is_titled_and_bounded sample_lib 1%nat
              (site (one_page year_limit_rows) no_details) id
              "Ada Lovelace" (Some 3) 0 4 None
              [Some (full_record "A" "2021"); Some (full_record "B" "2020");
               Some (full_record "C" "2019")])
    as [Htitled Hbound].
  - reflexivity.
  - split; [exact Htitled|]. apply (Hbound 3); [reflexivity|lia].
Defined.

Section RunFacts2.
Context `{PyLib}.

Lemma py_index_negative {A} (l : list A) i :
  - Z.of_nat (length l) ≤ i → i < 0 →
  py_index l i = py_index l (Z.of_nat (length l) + i).
Proof.
  intros Hlow Hneg. unfold py_index.
  rewrite (proj2 (Z.leb_gt 0 i)) by done.
  rewrite (proj2 (Z.leb_le _ i)) by done.
  by rewrite (proj2 (Z.leb_le 0 _)) by lia.
Qed.

Lemma py_slice_to_nil {A} stop : py_slice_to (@nil A) stop = [].
Proof.
  unfold py_slice_to. destruct stop as [n|]; [|done].
  destruct (0 <=? n); apply take_nil.
Qed.

Lemma get_profile_papers_no_user fuel w profile_url max_papers year_limit :
  query_user profile_url = "" →
  get_profile_papers fuel w profile_url max_papers year_limit
  = Some (ListerResult [] []).
Proof. intros Hnone. unfold get_profile_papers. by rewrite Hnone. Qed.

(** A cap of 0 or below leaves nothing to process. *)
Lemma nothing_to_process fuel w profile_url N year_limit listed :
  N ≤ 0 →
  get_profile_papers fuel w profile_url (Some N) year_limit = Some listed →
  py_slice_to (papers_of listed) (Some N) = [].
Proof.
  intros HN Hrun. destruct (decide (N = 0)) as [->|Hneg]; [apply take_0|].
  apply get_profile_papers_spec in Hrun as (_ & _ & ->).
  assert (room (Some N) 0 = Some 0%nat) as ->.
  { unfold room, truthy_int. destruct (N =? 0) eqn:HN0; [lia|]. simpl. f_equal. lia. }
  cbn [take_room]. rewrite take_0. apply py_slice_to_nil.
Qed.

Lemma run_pool_nil w completion : run_pool w completion [] = [].
Proof. apply nil_length_inv. by rewrite run_pool_length. Qed.

Lemma run_with_cap_below_one fuel w schedule author_name N profile_index num_workers
    year_limit detailed_papers :
  N ≤ 0 →
  outcome <$> analyze_author_research fuel w schedule author_name (Some N)
                profile_index num_workers year_limit
  = Some (inr detailed_papers) →
  detailed_papers = [].
Proof.
  intros HN Hrun.
  destruct (analyze_author_research _ _ _ _ _ _ _ _) as [r|] eqn:Hr; [|done].
  injection Hrun as Hout.
  destruct (analyze_returns_inv _ _ _ _ _ _ _ _ _ _ Hr Hout)
    as [[_ ->]|(p & listed & _ & Hlisted & _ & Henrich & _)]; [done|].
  rewrite (nothing_to_process _ _ _ _ _ _ HN Hlisted) in Henrich.
  by injection Henrich as <-.
Qed.

End RunFacts2.

(** X14: when the pool completes every work item once, a run of
    analyze_author_research that returns a list returns either the empty
    list, for want of a candidate profile, or the enrichment of the first
    max_papers records that get_profile_papers returns for one of the
    candidate profiles, in listing order. *)
Theorem run_returns_enriched_listing :
  ∀ (lib : PyLib) fuel w schedule author_name max_papers profile_index num_workers
    year_limit detailed_papers,
    (∀ l, schedule l ≡ₚ l) →
    outcome <$> analyze_author_research fuel w schedule author_name max_papers
                  profile_index num_workers year_limit
    = Some (inr detailed_papers) →
    (search_author_profiles w author_name = [] ∧ detailed_papers = [])
    ∨ ∃ chosen_profile listed,
        chosen_profile ∈ search_author_profiles w author_name
        ∧ get_profile_papers fuel w (url chosen_profile) max_papers year_limit = Some listed
        ∧ detailed_papers
          = Some <$> (enriched w <$> py_slice_to (papers_of listed) max_papers).
Proof.
  intros lib fuel w schedule author_name max_papers profile_index num_workers
    year_limit detailed_papers Hschedule Hrun.
  destruct (analyze_author_research _ _ _ _ _ _ _ _) as [r|] eqn:Hr; [|done].
  injection Hrun as Hout.
  destruct (analyze_returns_inv _ _ _ _ _ _ _ _ _ _ Hr Hout)
    as [?|(p & listed & Hchosen & Hlisted & _ & Henrich & _)]; [by left|].
  right. exists p, listed. split; [by eapply py_index_elem|split; [done|]].
  rewrite enrich_in_order in Henrich by done. by injection Henrich as <-.
Qed.

Lemma run_returns_enriched_listing_witness :
  (search_author_profiles (site (one_page year_limit_rows) sample_details) "Ada Lovelace"
   = []
   ∧ [Some (enriched (site (one_page year_limit_rows) sample_details)
              (full_record "A" "2021"));
      Some (full_record "B" "2020")] = [])
  ∨ ∃ chosen_profile listed,
      chosen_profile
        ∈ search_author_profiles (site (one_page year_limit_rows) sample_details)
            "Ada Lovelace"
      ∧ get_profile_papers 1 (site (one_page year_limit_rows) sample_details)
          (url chosen_profile) (Some 2) None = Some listed
      ∧ [Some (enriched (site (one_page year_limit_rows) sample_details)
                 (full_record "A" "2021"));
         Some (full_record "B" "2020")]
        = Some <$> (enriched (site (one_page year_limit_rows) sample_details)
                      <$> py_slice_to (papers_of listed) (Some 2)).
Proof.
  apply (run_returns_enriched_listing sample_lib 1%nat
           (site (one_page year_limit_rows) sample_details) id "Ada Lovelace"
           (Some 2) 0 4 None).
  - reflexivity.
  - reflexivity.
Defined.

(** X15: a negative profile_index not below minus the number of
    candidates counts from the end: the run is the run with profile_index
    plus the number of candidates, output included. *)
Theorem negative_profile_index_counts_from_end :
  ∀ (lib : PyLib) fuel w schedule author_name max_papers profile_index num_workers
    year_limit,
    - Z.of_nat (length (search_author_profiles w author_name)) ≤ profile_index →
    profile_index < 0 →
    analyze_author_research fuel w schedule author_name max_papers profile_index
      num_workers year_limit
    = analyze_author_research fuel w schedule author_name max_papers
        (Z.of_nat (length (search_author_profiles w author_name)) + profile_index)
        num_workers year_limit.
Proof.
  intros lib fuel w schedule author_name max_papers profile_index num_workers
    year_limit Hlow Hneg.
  unfold analyze_author_research.
  destruct (search_author_profiles w author_name) as [|p profiles]; [done|].
  rewrite (proj2 (Z.leb_gt (Z.of_nat (length (p :: profiles))) profile_index)) by lia.
  rewrite (proj2 (Z.leb_gt (Z.of_nat (length (p :: profiles)))
                   (Z.of_nat (length (p :: profiles)) + profile_index))) by lia.
  lazy beta iota zeta. by rewrite py_index_negative.
Qed.

Lemma negative_profile_index_counts_from_end_witness :
  analyze_author_research 1 (site (one_page year_limit_rows) no_details) id
    "Ada Lovelace" (Some 20) (-1) 4 None
  = analyze_author_research 1 (site (one_page year_limit_rows) no_details) id
      "Ada Lovelace" (Some 20)
      (Z.of_nat (length (search_author_profiles
                           (site (one_page year_limit_rows) no_details) "Ada Lovelace"))
       + -1) 4 None.
Proof.
  apply (negative_profile_index_counts_from_end sample_lib 1%nat
           (site (one_page year_limit_rows) no_details) id "Ada Lovelace"
           (Some 20) (-1) 4 None).
  - vm_compute. discriminate.
  - lia.
Defined.

(** X16: a profile_index at or above the number of candidates acts as 0:
    the run has the outcome of the run with profile_index 0, and it prints
    the out-of-range warning. *)
Theorem profile_index_too_large_acts_as_zero :
  ∀ (lib : PyLib) fuel w schedule author_name max_papers profile_index num_workers
    year_limit,
    search_author_profiles w author_name ≠ [] →
    Z.of_nat (length (search_author_profiles w author_name)) ≤ profile_index →
    outcome <$> analyze_author_research fuel w schedule author_name max_papers
                  profile_index num_workers year_limit
    = outcome <$> analyze_author_research fuel w schedule author_name max_papers 0
                    num_workers year_limit
    ∧ ∀ r, analyze_author_research fuel w schedule author_name max_papers
             profile_index num_workers year_limit = Some r →
           ("Profile index " +:+ pretty profile_index +:+ " out of range, using profile 0")
             ∈ stdout r.
Proof.
  intros lib fuel w schedule author_name max_papers profile_index num_workers
    year_limit Hsome Hlarge.
  split; [|intros r Hr; by eapply profile_index_too_large_is_reset].
  unfold analyze_author_research.
  destruct (search_author_profiles w author_name) as [|p profiles]; [done|].
  rewrite (proj2 (Z.leb_le _ _) Hlarge).
  rewrite (proj2 (Z.leb_gt (Z.of_nat (length (p :: profiles))) 0)) by (simpl; lia).
  lazy beta iota zeta. change (py_index (p :: profiles) 0) with (Some p).
  destruct (get_profile_papers fuel w (url p) max_papers year_limit) as [listed|] eqn:Hl;
    rewrite ?Hl; [|done].
  destruct (num_workers <=? 0); [done|].
  destruct (enrich w _ _ _) as [e|detailed]; [done|].
  by destruct (print_summary 1 detailed) as [lines [e|]].
Qed.

Lemma profile_index_too_large_acts_as_zero_witness :
  outcome <$> analyze_author_research 1 (site (one_page year_limit_rows) no_details) id
                "Ada Lovelace" (Some 20) 2 4 None
  = outcome <$> analyze_author_research 1 (site (one_page year_limit_rows) no_details) id
                  "Ada Lovelace" (Some 20) 0 4 None.
Proof.
  apply (profile_index_too_large_acts_as_zero sample_lib 1%nat
           (site (one_page year_limit_rows) no_details) id "Ada Lovelace"
           (Some 20) 2 4 None).
  - vm_compute. discriminate.
  - vm_compute. discriminate.
Defined.

(** X17: when the URL of the chosen profile carries no user id,
    analyze_author_research lists nothing and returns the empty list; it
    makes no listing request (it needs no fuel). *)
Theorem profile_without_user_id_returns_nothing :
  ∀ (lib : PyLib) fuel w schedule author_name max_papers profile_index num_workers
    year_limit chosen_profile,
    py_index (search_author_profiles w author_name)
      (if Z.of_nat (length (search_author_profiles w author_name)) <=? profile_index
       then 0 else profile_index) = Some chosen_profile →
    query_user (url chosen_profile) = "" →
    0 < num_workers →
    get_profile_papers fuel w (url chosen_profile) max_papers year_limit
    = Some (ListerResult [] [])
    ∧ outcome <$> analyze_author_research fuel w schedule author_name max_papers
                    profile_index num_workers year_limit
      = Some (inr []).
Proof.
  intros lib fuel w schedule author_name max_papers profile_index num_workers
    year_limit chosen_profile Hchosen Huser Hworkers.
  pose proof (get_profile_papers_no_user fuel w _ max_papers year_limit Huser) as Hlisted.
  split; [done|].
  unfold analyze_author_research.
  destruct (search_author_profiles w author_name) as [|p profiles].
  { by destruct (_ <=? _) in Hchosen; destruct profile_index. }
  apply Z.leb_gt in Hworkers.
  destruct (Z.of_nat (length (p :: profiles)) <=? profile_index);
    lazy beta iota zeta; rewrite Hchosen, Hlisted, Hworkers;
    cbn [papers_of]; rewrite py_slice_to_nil;
    change (enumerate_papers []) with (@nil (nat * nat));
    by rewrite enrich_nothing.
Qed.

Lemma profile_without_user_id_returns_nothing_witness :
  get_profile_papers 0 site_with_empty_user "https://scholar.google.com/citations?user="
    (Some 20) None
  = Some (ListerResult [] [])
  ∧ outcome <$> analyze_author_research 0 site_with_empty_user id "Ada Lovelace"
                  (Some 20) 0 4 None
    = Some (inr []).
Proof.
  apply (profile_without_user_id_returns_nothing sample_lib 0%nat site_with_empty_user id
           "Ada Lovelace" (Some 20) 0 4 None
           (Profile "Ada Lovelace" "https://scholar.google.com/citations?user="
              "Ada Lovelace")).
  - reflexivity.
  - reflexivity.
  - lia.
Defined.

(** X18: main hands a result to json.dump only when --output is a
    non-empty path and analyze_author_research returned a non-empty list;
    what it hands over is that list, whose records all have a title and
    number at most --max-papers. Nothing is saved when --max-papers is 0
    or below, or when the run ends with an exception. *)
Theorem main_saves_only_returned_results :
  ∀ (lib : PyLib) fuel w schedule args,
    (∀ path papers,
       saved <$> main fuel w schedule args = Some (Some (path, papers)) →
       args_output args = Some path
       ∧ path ≠ ""
       ∧ papers ≠ []
       ∧ outcome <$> analyze_author_research fuel w schedule (args_author args)
                       (Some (args_max_papers args)) (args_profile_index args)
                       (args_num_workers args) (args_year_limit args)
         = Some (inr papers)
       ∧ Forall titled_slot papers
       ∧ Z.of_nat (length papers) ≤ args_max_papers args)
    ∧ (∀ m, main fuel w schedule args = Some m →
            args_max_papers args ≤ 0 ∨ uncaught m ≠ None ∨ args_output args = None →
            saved m = None).
Proof.
  intros lib fuel w schedule args. unfold main.
  destruct (analyze_author_research fuel w schedule (args_author args)
              (Some (args_max_papers args)) (args_profile_index args)
              (args_num_workers args) (args_year_limit args)) as [r|] eqn:Hr;
    [|by split].
  assert (outcome <$> Some r = Some (outcome r)) as Houtcome by done.
  destruct (outcome r) as [e|detailed] eqn:Hout.
  { split; [done|]. by intros m [= <-]. }
  assert (detailed = [] ∨
          (detailed ≠ [] ∧ Forall titled_slot detailed
           ∧ 0 < args_max_papers args
           ∧ Z.of_nat (length detailed) ≤ args_max_papers args)) as Hdetailed.
  { destruct (decide (args_max_papers args ≤ 0)) as [Hle|Hgt].
    - left. eapply run_with_cap_below_one; [exact Hle|]. by rewrite Hr, Houtcome.
    - destruct detailed as [|slot rest]; [by left|]. right.
      destruct (analyze_returns_inv _ _ _ _ _ _ _ _ _ _ Hr Hout)
        as [[_ ?]|(p & listed & _ & _ & _ & Henrich & Hsummary)]; [done|].
      split; [done|split; [by apply print_summary_ok in Hsummary|split; [lia|]]].
      rewrite enrich_submitted_contents in Henrich. injection Henrich as Heq.
      rewrite <- Heq, length_fmap, run_pool_length. apply py_slice_to_length. lia. }
  unfold output_wanted.
  destruct (args_output args) as [path|] eqn:Hpath.
  - destruct detailed as [|slot rest].
    { split; [done|]. by intros m [= <-]. }
    destruct Hdetailed as [?|(_ & Htitled & Hpos & Hbound)]; [done|].
    unfold truthy_str. destruct (decide (path = "")) as [->|Hne].
    + rewrite bool_decide_eq_true_2 by done. simpl. split; [done|]. by intros m [= <-].
    + rewrite bool_decide_eq_false_2 by done. simpl. split.
      * by intros path' papers [= <- <-].
      * intros m [= <-]. simpl. intros [?|[?|?]]; [lia|done|done].
  - destruct detailed; (split; [done|]; by intros m [= <-]).
Qed.

Lemma main_saves_only_returned_results_witness :
  (Some "papers.json" = Some "papers.json"
   ∧ "papers.json" ≠ ""
   ∧ [Some (full_record "A" "2021"); Some (full_record "B" "2020")] ≠ []
   ∧ outcome <$> analyze_author_research 1 (site (one_page year_limit_rows) no_details) id
                   "Ada Lovelace" (Some 2) 0 4 None
     = Some (inr [Some (full_record "A" "2021"); Some (full_record "B" "2020")])
   ∧ Forall titled_slot [Some (full_record "A" "2021"); Some (full_record "B" "2020")]
   ∧ Z.of_nat (length [Some (full_record "A" "2021"); Some (full_record "B" "2020")]) ≤ 2)
  ∧ saved <$> main 1 (site (one_page year_limit_rows) no_details) id
                (CliArgs "Ada Lovelace" 0 0 4 None (Some "papers.json"))
    = Some None.
Proof.
  split.
  - apply (proj1 (main_saves_only_returned_results sample_lib 1%nat
                    (site (one_page year_limit_rows) no_details) id
                    (CliArgs "Ada Lovelace" 2 0 4 None (Some "papers.json")))
             "papers.json" [Some (full_record "A" "2021"); Some (full_record "B" "2020")]).
    reflexivity.
  - destruct (main 1 (site (one_page year_limit_rows) no_details) id
                (CliArgs "Ada Lovelace" 0 0 4 None (Some "papers.json"))) as [m|] eqn:Hm;
      [|vm_compute in Hm; discriminate Hm].
    simpl. f_equal.
    apply (proj2 (main_saves_only_returned_results sample_lib 1%nat
                    (site (one_page year_limit_rows) no_details) id
                    (CliArgs "Ada Lovelace" 0 0 4 None (Some "papers.json"))) m Hm).
    left. simpl. lia.
Defined.

(** X19: in the summary the header line of a paper shows its title whole
    when the title has at most 80 characters (code points), and otherwise
    the first 80 characters of it followed by three dots; the abstract
    line, when the paper has an abstract, shows it in the same way with
    500 characters. The cut falls between two characters, never inside the
    bytes of one. *)
Theorem summary_cuts_title_and_abstract :
  ∀ (lib : PyLib) i (paper : dict) title,
    paper !! "title" = Some title →
    ∃ shown more,
      summary_lines i (Some paper)
      = inr ((nl +:+ "--- Paper " +:+ pretty i +:+ ": " +:+ shown +:+ " ---") :: more)
      ∧ cut_to 80 title shown
      ∧ ∀ abstract, paper !! "abstract" = Some abstract →
          ∃ shown_abstract,
            ("Abstract: " +:+ shown_abstract) ∈ more
            ∧ cut_to 500 abstract shown_abstract.
Proof.
  intros lib i paper title Htitle. unfold summary_lines. rewrite Htitle.
  eexists (clip 80 title), _. split; [reflexivity|split; [apply clip_cut_to|]].
  intros abstract Habstract. exists (clip 500 abstract). rewrite Habstract.
  split; [|apply clip_cut_to].
  apply list_elem_of_further, list_elem_of_further, list_elem_of_further,
    list_elem_of_further, list_elem_of_here.
Qed.

Lemma summary_cuts_title_and_abstract_witness :
  ∃ shown more,
    summary_lines 1 (Some {[ "title" := repeat_str 81 e_acute; "abstract" := "Notes" ]})
    = inr ((nl +:+ "--- Paper " +:+ pretty 1%nat +:+ ": " +:+ shown +:+ " ---") :: more)
    ∧ cut_to 80 (repeat_str 81 e_acute) shown
    ∧ ∀ abstract,
        ({[ "title" := repeat_str 81 e_acute; "abstract" := "Notes" ]} : dict) !! "abstract"
        = Some abstract →
        ∃ shown_abstract,
          ("Abstract: " +:+ shown_abstract) ∈ more
          ∧ cut_to 500 abstract shown_abstract.
Proof.
  apply (summary_cuts_title_and_abstract sample_lib 1%nat
           {[ "title" := repeat_str 81 e_acute; "abstract" := "Notes" ]}
           (repeat_str 81 e_acute)).
  reflexivity.
Defined.

(** Eighty-one accented letters take 162 bytes; the summary keeps eighty
    of them and adds the dots, and it shows forty-one of them whole. *)
Example clip_counts_code_points :
  String.length (repeat_str 81 e_acute) = 162%nat
  ∧ py_len (repeat_str 81 e_acute) = 81%nat
  ∧ clip 80 (repeat_str 81 e_acute) = repeat_str 80 e_acute +:+ "..."
  ∧ clip 80 (repeat_str 41 e_acute) = repeat_str 41 e_acute.
Proof. repeat split; vm_compute; reflexivity. Qed.
